(** * fmfi-svt-gate/server: struct framework and controller API

    A shallow embedding of [structparse/structdef.py] and
    [gateserver/controller_api.py], and the properties of the
    specification that concern them.

    Python values that matter for the struct framework are modelled as
    immutable objects carrying their class and an object identity; code
    that creates objects runs in a state monad over the allocation
    counter, and exceptions are the error side of [result]. *)

From Stdlib Require Import ZArith List String Ascii Strings.Byte Lia.
From stdpp Require Import base list strings gmap pretty.

Set Warnings "-register-all".

(** ** Exceptions and results *)

(** The exception classes the modelled code can raise.  The payload is
    the message (for [KeyError], the missing key). *)
Inductive exn : Type :=
  | NotImplementedError
  | ValueError (msg : string)
  | TypeError (msg : string)
  | KeyError (key : string)
  | IndexError (msg : string)
  | AttributeError (msg : string)
  | AssertionError (msg : string)
  | BadMessageError (msg : string).

Inductive result (A : Type) : Type :=
  | Ok (a : A)
  | Raise (e : exn).
Arguments Ok {A} a.
Arguments Raise {A} e.

#[global] Instance result_ret : MRet result := λ A, Ok.
#[global] Instance result_bind : MBind result := λ A B f m,
  match m with Ok a => f a | Raise e => Raise e end.

(** A buffer: Python [bytes]. *)
Abbreviation bytes := (list byte).

#[global] Instance byte_eq_dec : EqDecision byte := Byte.byte_eq_dec.

(** ** Insertion-ordered dictionaries with string keys

    [dict] keeps Python's iteration order: a new key goes to the end, an
    existing key keeps its place and gets the new value. *)
Module Dict.

Definition dict (V : Type) : Type := list (string * V).

Fixpoint setitem {V} (d : dict V) (k : string) (v : V) : dict V :=
  match d with
  | [] => [(k, v)]
  | (k', v') :: d' =>
      if decide (k' = k) then (k', v) :: d' else (k', v') :: setitem d' k v
  end.

(** [d.update(kvs)], also [dict(d, **kvs)] *)
Definition update {V} (d : dict V) (kvs : list (string * V)) : dict V :=
  fold_left (λ d kv, setitem d kv.1 kv.2) kvs d.

(** [dict(kvs)] *)
Definition of_pairs {V} (kvs : list (string * V)) : dict V := update [] kvs.

Fixpoint get {V} (d : dict V) (k : string) : option V :=
  match d with
  | [] => None
  | (k', v) :: d' => if decide (k' = k) then Some v else get d' k
  end.

(** [d[k]] *)
Definition getitem {V} (d : dict V) (k : string) : result V :=
  match get d k with
  | Some v => Ok v
  | None => Raise (KeyError k)
  end.

Definition keys {V} (d : dict V) : list string := d.*1.

End Dict.

(** ** structparse/structdef.py *)
Module Structdef.
Import Dict.

(** *** Objects

    An object has a class (the identity of its [__class__]), an identity
    of its own ([id(x)]) and a value.  Instances of the classes made by
    [struct] are tuples; the values of primitive field types are integers
    or byte strings, possibly of a subclass of [int] or [bytes]. *)
Inductive object : Type :=
  | PyInt (cls oid : nat) (n : Z)
  | PyBytes (cls oid : nat) (b : bytes)
  | PyTuple (cls oid : nat) (items : list object).

(** [x.__class__] *)
Definition class_of (x : object) : nat :=
  match x with
  | PyInt c _ _ | PyBytes c _ _ | PyTuple c _ _ => c
  end.

(** [id(x)] *)
Definition id_of (x : object) : nat :=
  match x with
  | PyInt _ o _ | PyBytes _ o _ | PyTuple _ o _ => o
  end.

(** [x == y]: [int], [bytes] and [tuple] compare by value, whatever the
    subclass; a namedtuple compares as the tuple it is. *)
Fixpoint py_eq (x y : object) : bool :=
  match x, y with
  | PyInt _ _ n, PyInt _ _ m => bool_decide (n = m)
  | PyBytes _ _ a, PyBytes _ _ b => bool_decide (a = b)
  | PyTuple _ _ xs, PyTuple _ _ ys =>
      (fix go (xs ys : list object) : bool :=
         match xs, ys with
         | [], [] => true
         | x :: xs, y :: ys => py_eq x y && go xs ys
         | _, _ => false
         end) xs ys
  | _, _ => false
  end.

(** [x is y] *)
Definition py_is (x y : object) : bool := bool_decide (id_of x = id_of y).

(** *** The monad of code that creates objects

    The state is the next unused identity; classes and instances draw
    from the same supply. *)
Definition M (A : Type) : Type := nat → result (A * nat).

#[global] Instance M_ret : MRet M := λ A a st, Ok (a, st).
#[global] Instance M_bind : MBind M := λ A B f m st,
  match m st with
  | Ok (a, st') => f a st'
  | Raise e => Raise e
  end.

Definition raise {A} (e : exn) : M A := λ _, Raise e.

Definition lift {A} (r : result A) : M A := λ st,
  match r with
  | Ok a => Ok (a, st)
  | Raise e => Raise e
  end.

Definition fresh : M nat := λ st, Ok (st, S st).

(** *** class Type

    What the framework uses of a serializable type [t]: its constructor
    [t(v)], the static method [t.unpack_from(buf)] and [t.pack(x)]. *)
Record PyType : Type := {
  ty_call : object → M object;
  ty_unpack_from : bytes → M (object * bytes);
  ty_pack : object → result bytes
}.

(** The methods of the base class, which a subclass overrides. *)
Definition Type_unpack_from (buf : bytes) : M (object * bytes) :=
  raise NotImplementedError.

Definition Type_pack (self : object) : result bytes :=
  Raise NotImplementedError.

(** [Type.unpack], a classmethod inherited by every type. *)
Definition unpack (cls : PyType) (buf : bytes) : M object :=
  '(x, rest) ← ty_unpack_from cls buf;
  if bool_decide (0 < length rest)
  then raise (ValueError "buffer size != struct size")
  else mret x.

(** *** collections.namedtuple

    The checks [namedtuple(typename, field_names)] makes on the names it
    is given.  Names are ASCII here, and on ASCII names the checks are
    those of Python.  What Python makes of a name with other characters
    depends on the Unicode tables, which are not modelled: such a name
    is refused here as not an identifier, so the classes that [struct]
    makes here are classes that Python makes too, not the reverse. *)
Definition is_id_start (c : ascii) : bool :=
  let n := nat_of_ascii c in
  bool_decide (65 ≤ n ≤ 90)%nat || bool_decide (97 ≤ n ≤ 122)%nat || bool_decide (n = 95)%nat.

Definition is_id_continue (c : ascii) : bool :=
  is_id_start c || bool_decide (48 ≤ nat_of_ascii c ≤ 57)%nat.

(** [s.isidentifier()] *)
Definition isidentifier (s : string) : bool :=
  match s with
  | EmptyString => false
  | String c s' => is_id_start c && forallb is_id_continue (list_ascii_of_string s')
  end.

(** [keyword.kwlist] *)
Definition kwlist : list string :=
  ["False"; "None"; "True"; "and"; "as"; "assert"; "async"; "await";
   "break"; "class"; "continue"; "def"; "del"; "elif"; "else"; "except";
   "finally"; "for"; "from"; "global"; "if"; "import"; "in"; "is";
   "lambda"; "nonlocal"; "not"; "or"; "pass"; "raise"; "return"; "try";
   "while"; "with"; "yield"]%string.

Definition iskeyword (s : string) : bool := bool_decide (s ∈ kwlist).

(** [s.startswith('_')] *)
Definition startswith_underscore (s : string) : bool :=
  match s with
  | String c _ => bool_decide (nat_of_ascii c = 95)
  | EmptyString => false
  end.

Definition check_identifier (name : string) : result unit :=
  if negb (isidentifier name)
  then Raise (ValueError ("Type names and field names must be valid identifiers: '" +:+ name +:+ "'"))
  else if iskeyword name
  then Raise (ValueError ("Type names and field names cannot be a keyword: '" +:+ name +:+ "'"))
  else Ok tt.

Fixpoint check_field_names (seen names : list string) : result unit :=
  match names with
  | [] => Ok tt
  | name :: names' =>
      if startswith_underscore name
      then Raise (ValueError ("Field names cannot start with an underscore: '" +:+ name +:+ "'"))
      else if bool_decide (name ∈ seen)
      then Raise (ValueError ("Encountered duplicate field name: '" +:+ name +:+ "'"))
      else check_field_names (name :: seen) names'
  end.

(** The validation done by [namedtuple(typename, field_names)]. *)
Definition namedtuple_check (typename : string) (field_names : list string) : result unit :=
  _ ← mapM check_identifier (typename :: field_names);
  check_field_names [] field_names.

(** *** Struct classes *)

(** The class made by [struct]: [_fields] comes from the namedtuple base,
    [_fieldtypes] is set by [struct]. *)
Record Cls : Type := {
  cls_id : nat;
  __name__ : string;
  _fields : list string;
  _fieldtypes : list PyType
}.

(** The names of the missing arguments as the interpreter lists them:
    ['a'], ['a' and 'b'], ['a', 'b', and 'c']. *)
Definition quoted (s : string) : string := "'" +:+ s +:+ "'".

Fixpoint listed (names : list string) : string :=
  match names with
  | [] => ""
  | [z] => quoted z
  | [y; z] => quoted y +:+ ", and " +:+ quoted z
  | a :: names' => quoted a +:+ ", " +:+ listed names'
  end.

Definition missing_arguments (cls : Cls) (kw : dict object) : string :=
  let missing := filter (λ f, get kw f = None) (_fields cls) in
  __name__ cls +:+ ".__new__() missing " +:+ pretty (length missing)
  +:+ " required positional argument"
  +:+ (if bool_decide (length missing = 1) then "" else "s") +:+ ": "
  +:+ match missing with
      | [y; z] => quoted y +:+ " and " +:+ quoted z
      | _ => listed missing
      end.

(** [namedtuple.__new__(cls, **kw)]: every field is bound by keyword, and
    the instance is a new tuple of the values in field order. *)
Definition namedtuple_new (cls : Cls) (kw : dict object) : M object :=
  if negb (forallb (λ k, bool_decide (k ∈ _fields cls)) (keys kw))
  then raise (TypeError (__name__ cls +:+ ".__new__() got an unexpected keyword argument "
                         +:+ quoted (default "" (head (filter (λ k, k ∉ _fields cls) (keys kw))))))
  else
    items ← lift (mapM (λ f, match get kw f with
                             | Some v => Ok v
                             | None => Raise (TypeError (missing_arguments cls kw))
                             end) (_fields cls));
    oid ← fresh;
    mret (PyTuple (cls_id cls) oid items).

(** The dict comprehension of [__new__]:
    [{ n: field_types[n](v) for (n, v) in to_convert.items() }]. *)
Fixpoint convert_items (field_types : dict PyType) (items : list (string * object))
    (converted : dict object) : M (dict object) :=
  match items with
  | [] => mret converted
  | (n, v) :: items' =>
      t ← lift (getitem field_types n);
      x ← ty_call t v;
      convert_items field_types items' (setitem converted n x)
  end.

(** [_StructMixin.__new__(cls, *args, **kwargs)].  The namedtuple base
    defines no [__init__], so calling the class is this call.  The class
    is bound to the first parameter by position, so a keyword named
    [cls] is a second value for it and the call fails before the body
    runs. *)
Definition __new__ (cls : Cls) (args : list object) (kwargs : list (string * object)) : M object :=
  if bool_decide ("cls"%string ∈ keys kwargs)
  then raise (TypeError "_StructMixin.__new__() got multiple values for argument 'cls'")
  else
  if bool_decide (length args = 1) && bool_decide (length kwargs = 0)
     && from_option (λ x, bool_decide (class_of x = cls_id cls)) false (args !! 0)
  then from_option mret (raise (IndexError "tuple index out of range")) (args !! 0)
  else if negb (bool_decide (length args + length kwargs = length (_fields cls)))
  then raise (TypeError ("Must be initialized with exactly "
                         +:+ pretty (length (_fields cls)) +:+ " arguments"))
  else
    let field_types := of_pairs (zip (_fields cls) (_fieldtypes cls)) in
    let to_convert := update (of_pairs (zip (_fields cls) args)) kwargs in
    converted ← convert_items field_types to_convert [];
    namedtuple_new cls converted.

(** The loop of [unpack_from]: [vals] and [buf] are its two variables. *)
Fixpoint unpack_fields (fieldtypes : list PyType) (vals : list object) (buf : bytes)
    : M (list object * bytes) :=
  match fieldtypes with
  | [] => mret (vals, buf)
  | t :: fieldtypes' =>
      '(val, buf) ← ty_unpack_from t buf;
      unpack_fields fieldtypes' (vals ++ [val]) buf
  end.

(** [_StructMixin.unpack_from(cls, buf)] *)
Definition unpack_from (cls : Cls) (buf : bytes) : M (object * bytes) :=
  '(vals, buf) ← unpack_fields (_fieldtypes cls) [] buf;
  x ← __new__ cls vals [];
  mret (x, buf).

Section ClassTable.

(** The classes of the program, by identity: [self._fieldtypes] is looked
    up on the class of [self]. *)
Variable classes : nat → option Cls.

(** [_StructMixin.pack(self)] *)
Definition pack (self : object) : result bytes :=
  match self with
  | PyTuple c _ items =>
      match classes c with
      | Some cls =>
          chunks ← mapM (λ tx, ty_pack tx.1 tx.2) (zip (_fieldtypes cls) items);
          Ok (concat chunks)
      | None => Raise (AttributeError "object has no attribute '_fieldtypes'")
      end
  | _ => Raise (AttributeError "object has no attribute '_fieldtypes'")
  end.

(** A struct class seen as a field type: [cls(v)], [cls.unpack_from] and
    [cls.pack]. *)
Definition StructType (cls : Cls) : PyType := {|
  ty_call := λ v, __new__ cls [v] [];
  ty_unpack_from := unpack_from cls;
  ty_pack := pack
|}.

End ClassTable.

(** [unzip(x)], the transposition of [x], for rows that are pairs: the two columns, and nothing at all
    when there is no row. *)
Definition unzip {A B} (x : list (A * B)) : option (list A * list B) :=
  match x with
  | [] => None
  | _ => Some (x.*1, x.*2)
  end.

(** [struct(name, *fields)]: the namedtuple base and the class itself are
    two new classes. *)
Definition struct (name : string) (fields : list (PyType * string)) : M Cls :=
  '(fieldtypes, fieldnames) ←
    lift (match unzip fields with
          | Some p => Ok p
          | None => Raise (ValueError "not enough values to unpack (expected 2, got 0)")
          end);
  _ ← lift (namedtuple_check name fieldnames);
  base ← fresh;
  id ← fresh;
  mret {| cls_id := id; __name__ := name;
          _fields := fieldnames; _fieldtypes := fieldtypes |}.

(** *** The specification's reading of [unpack_from]

    Each field type's [unpack_from] applied in declaration order to the
    remainder left by the one before. *)
Inductive decode_chain : list PyType → bytes → nat → list object → bytes → nat → Prop :=
  | decode_nil buf st : decode_chain [] buf st [] buf st
  | decode_cons t ts buf st v buf1 st1 vs buf2 st2 :
      ty_unpack_from t buf st = Ok ((v, buf1), st1) →
      decode_chain ts buf1 st1 vs buf2 st2 →
      decode_chain (t :: ts) buf st (v :: vs) buf2 st2.

(** The constructors of the fields applied in declaration order. *)
Inductive coerce_chain : list PyType → list object → nat → list object → nat → Prop :=
  | coerce_nil st : coerce_chain [] [] st [] st
  | coerce_cons t ts v vs st x st1 xs st2 :
      ty_call t v st = Ok (x, st1) →
      coerce_chain ts vs st1 xs st2 →
      coerce_chain (t :: ts) (v :: vs) st (x :: xs) st2.

(** *** The laws of a serializable type *)

(** The round-trip law at the value [x]: [t.unpack(t.pack(x)) == x]. *)
Definition roundtrip_law (t : PyType) (x : object) : Prop :=
  ∃ b, ty_pack t x = Ok b
     ∧ ∀ st, ∃ y st', unpack t b st = Ok (y, st') ∧ py_eq y x = true.

(** What a field of the struct class [T] needs at the value [x]:
    [unpack_from] gives back a value equal to [x] from the bytes of [x]
    whatever follows them, and leaves exactly what follows; the value it
    gives is not an instance of [T] itself, and the constructor of the
    field type turns it into a value equal to [x]. *)
Definition field_law (T : Cls) (t : PyType) (x : object) : Prop :=
  ∃ b, ty_pack t x = Ok b
     ∧ ∀ rest st, ∃ y st',
         ty_unpack_from t (b ++ rest) st = Ok ((y, rest), st')
         ∧ class_of y ≠ cls_id T
         ∧ ∀ st2, ∃ z st3, ty_call t y st2 = Ok (z, st3) ∧ py_eq z x = true.

(** [t] has size [n]: a successful [unpack_from] takes exactly the first
    [n] bytes of the buffer. *)
Definition has_size (t : PyType) (n : nat) : Prop :=
  ∀ buf st x rest st',
    ty_unpack_from t buf st = Ok ((x, rest), st') →
    (n ≤ length buf)%nat ∧ rest = drop n buf.

(** What decoding then encoding needs of a field type [t] of the struct
    class [T]: a value that [unpack_from] gives is not an instance of [T]
    itself, and what the constructor of [t] makes of it packs to the
    bytes that [unpack_from] took from the buffer. *)
Definition decode_law (T : Cls) (t : PyType) : Prop :=
  ∀ buf st y rest st1,
    ty_unpack_from t buf st = Ok ((y, rest), st1) →
    class_of y ≠ cls_id T
    ∧ ∀ st2 z st3,
        ty_call t y st2 = Ok (z, st3) →
        ∃ p, ty_pack t z = Ok p ∧ buf = p ++ rest.

(** *** Two field types for the examples *)

(** One unsigned byte, an [int] subclass: the class has identity [cid]. *)
Definition Uint8 (cid : nat) : PyType := {|
  ty_call := λ v,
    match v with
    | PyInt _ _ n => oid ← fresh; mret (PyInt cid oid n)
    | _ => raise (TypeError "int() argument must be a number")
    end;
  ty_unpack_from := λ buf,
    match buf with
    | b :: rest => oid ← fresh; mret (PyInt cid oid (Z.of_nat (Byte.to_nat b)), rest)
    | [] => raise (ValueError "unpack requires a buffer of 1 bytes")
    end;
  ty_pack := λ x,
    match x with
    | PyInt _ _ n =>
        match Byte.of_nat (Z.to_nat n) with
        | Some b => if bool_decide (0 ≤ n)%Z then Ok [b] else Raise (ValueError "ubyte format requires 0 <= number <= 255")
        | None => Raise (ValueError "ubyte format requires 0 <= number <= 255")
        end
    | _ => Raise (TypeError "required argument is not an integer")
    end
|}.

(** One unsigned byte whose constructor, given a value, keeps its
    complement to 255; [unpack_from] makes the value directly from the
    byte, as [int.__new__] would. *)
Definition Flip (cid : nat) : PyType := {|
  ty_call := λ v,
    match v with
    | PyInt _ _ n => oid ← fresh; mret (PyInt cid oid (255 - n))
    | _ => raise (TypeError "int() argument must be a number")
    end;
  ty_unpack_from := ty_unpack_from (Uint8 cid);
  ty_pack := ty_pack (Uint8 cid)
|}.

(** One unsigned byte read with [struct.unpack], which wants a buffer of
    exactly the size of the format: [unpack_from] fails when anything
    follows the byte. *)
Definition Strict (cid : nat) : PyType := {|
  ty_call := ty_call (Uint8 cid);
  ty_unpack_from := λ buf,
    match buf with
    | [b] => oid ← fresh; mret (PyInt cid oid (Z.of_nat (Byte.to_nat b)), [])
    | _ => raise (ValueError "unpack requires a buffer of 1 bytes")
    end;
  ty_pack := ty_pack (Uint8 cid)
|}.

(** A field type whose values are instances of the struct class [cid]
    holding one byte: [unpack_from] makes such an instance from one
    byte, and the constructor returns the instance it is given. *)
Definition Own (cid : nat) : PyType := {|
  ty_call := λ v, mret v;
  ty_unpack_from := λ buf,
    match buf with
    | b :: rest =>
        i ← fresh; oid ← fresh;
        mret (PyTuple cid oid [PyInt 0 i (Z.of_nat (Byte.to_nat b))], rest)
    | [] => raise (ValueError "unpack requires a buffer of 1 bytes")
    end;
  ty_pack := λ x,
    match x with
    | PyTuple _ _ [y] => ty_pack (Uint8 0) y
    | _ => Raise (TypeError "required argument is not an integer")
    end
|}.

(** The class that [struct("Pair", (Uint8, "a"), (Uint8, "b"))] makes
    when the next identity is 10, and the classes that [struct] makes
    there from one [Flip] field, from two [Strict] fields and from one
    [Own] field. *)
Definition Pair : Cls := {|
  cls_id := 11; __name__ := "Pair";
  _fields := ["a"; "b"]%string; _fieldtypes := [Uint8 1; Uint8 1]
|}.

Definition Flipped : Cls := {|
  cls_id := 11; __name__ := "Flipped";
  _fields := ["a"]%string; _fieldtypes := [Flip 1]
|}.

Definition Stricts : Cls := {|
  cls_id := 11; __name__ := "Stricts";
  _fields := ["a"; "b"]%string; _fieldtypes := [Strict 1; Strict 1]
|}.

Definition Owned : Cls := {|
  cls_id := 11; __name__ := "Owned";
  _fields := ["a"]%string; _fieldtypes := [Own 11]
|}.

(** The class table of a program whose only struct class is [cls]. *)
Definition only_class (cls : Cls) : nat → option Cls :=
  λ c, if decide (c = cls_id cls) then Some cls else None.

(** A class of two [Pair] fields, as
    [struct("Line", (Pair, "p"), (Pair, "q"))] makes it. *)
Definition Line : Cls := {|
  cls_id := 13; __name__ := "Line";
  _fields := ["p"; "q"]%string;
  _fieldtypes := [StructType (only_class Pair) Pair; StructType (only_class Pair) Pair]
|}.

End Structdef.

(** ** gateserver/controller_api.py *)
Module ControllerApi.

(** *** What the module imports from [controller_protocol] *)

(** Modelled from the spec: [checkmsg] of [controller_protocol], whose
    source is missing.  The validation layer raises the single error
    kind [BadMessageError], with the reason it is given, when the
    condition does not hold. *)
Definition checkmsg (cond : bool) (msg : string) : result unit :=
  if cond then Ok tt else Raise (BadMessageError msg).

(** Modelled from the spec: the enumeration [ResponseStatus] of
    [controller_protocol] (imported as [S]), whose source is missing: the
    outcomes OK and ERR. *)
Inductive ResponseStatus : Type := OK | ERR.

(** Modelled from the spec: the header records of [controller_protocol],
    whose source is missing.  [PacketHead] is the protocol version, the
    6-byte identifier of the controller and the 18-byte nonce;
    [RequestHead] is the one-byte message type. *)
Record PacketHead : Type := {
  protocolVersion : byte;
  controllerID : bytes;
  nonce : bytes
}.

Record RequestHead : Type := { msgtype : byte }.

(** The enumeration [MsgType] is declared in [controller_protocol]; the
    module is given it as the list of the names of its members, and a
    member is identified by its name. *)
Abbreviation Enum := (list string).

(** [E.name] *)
Definition getattr (E : Enum) (name : string) : result string :=
  if bool_decide (name ∈ E) then Ok name else Raise (AttributeError name).

(** *** fstring *)

(** [b'Hello'] *)
Definition Hello : bytes := ["H"; "e"; "l"; "l"; "o"]%byte.

Definition fstring (buf : bytes) : result bytes :=
  b0 ← match buf !! 0%nat with
       | Some b => Ok b
       | None => Raise (IndexError "index out of range")
       end;
  let length := Byte.to_nat b0 in
  let string := drop 1 buf in
  _ ← checkmsg (bool_decide (length ≤ List.length string)%nat) "fstring length > buffer size";
  Ok (take length string).

(** *** The dispatch table and the start of the module *)

Definition handler : Type := bytes → result (ResponseStatus * option bytes).

(** [lambda data: ((S.OK if fstring(data) == b'Hello' else S.ERR), None)] *)
Definition handle_OPEN : handler := λ data,
  s ← fstring data;
  Ok (if bool_decide (s = Hello) then OK else ERR, None).

(** The module once its top-level statements have run. *)
Record module : Type := { process_request : gmap string handler }.

(** The top-level statements that concern dispatch: the table is built,
    then the assertion compares its keys with the enumeration.  The
    [assert] statement is executed: the interpreter does not run with
    assertions stripped. *)
Definition import_module (MsgType : Enum) : result module :=
  OPEN ← getattr MsgType "OPEN";
  let process_request : gmap string handler := {[ OPEN := handle_OPEN ]} in
  if bool_decide ((list_to_set MsgType : gset string) = dom process_request)
  then Ok {| process_request := process_request |}
  else Raise (AssertionError "Not all message types are handled").

(** *** Handling a request

    The collaborators are called in the order of the source; each call
    is recorded, so that what has been attempted when a request fails
    can be read off the trace. *)
Inductive event : Type :=
  | EvParsePacketHead (buf : bytes)
  | EvExecSql (id : string)
  | EvParseR (payload : bytes)
  | EvPrint (mac req_type : string) (indata : bytes) (status : ResponseStatus)
  | EvMakeReply (status : ResponseStatus) (outdata : option bytes).

Definition IO (A : Type) : Type := list event → result A * list event.

#[global] Instance IO_ret : MRet IO := λ A a tr, (Ok a, tr).
#[global] Instance IO_bind : MBind IO := λ A B f m tr,
  match m tr with
  | (Ok a, tr') => f a tr'
  | (Raise e, tr') => (Raise e, tr')
  end.

(** A call of a collaborator: the event, then its result. *)
Definition call {A} (ev : event) (r : result A) : IO A := λ tr, (r, tr ++ [ev]).

Definition liftIO {A} (r : result A) : IO A := λ tr, (r, tr).

(** [try: body except BadMessageError as e: h(e)] *)
Definition try_except_BadMessageError {A} (body : IO A) (h : exn → IO A) : IO A := λ tr,
  match body tr with
  | (Raise (BadMessageError msg), tr') => h (BadMessageError msg) tr'
  | r => r
  end.

Section Collaborators.

(** [parse_packet_head], [parse_r] and [make_reply_for] of
    [controller_protocol], [utils.bytes2mac], and the table
    [controller(id, key)] that [db.exec_sql] queries. *)
Variable parse_packet_head : bytes → result (PacketHead * bytes).
Variable parse_r : PacketHead → bytes → bytes → result (RequestHead * string * bytes).
Variable make_reply_for :
  PacketHead → RequestHead → bytes → ResponseStatus → option bytes → result bytes.
Variable bytes2mac : bytes → string.
Variable controller : list (string * bytes).

(** [db.exec_sql('SELECT key FROM controller WHERE id = %s', (id,), ret=True)] *)
Definition exec_sql_select_key (id : string) : IO (list bytes) :=
  call (EvExecSql id) (Ok (filter (λ row, row.1 = id) controller).*2).

Definition get_key_for_mac (mac : bytes) : IO bytes :=
  rs ← exec_sql_select_key (bytes2mac mac);
  _ ← liftIO (checkmsg (bool_decide (length rs = 1%nat)) "unknown controllerID ");
  match rs !! 0%nat with
  | Some key => mret key
  | None => liftIO (Raise (IndexError "list index out of range"))
  end.

Definition log_message (controllerID : bytes) (req_type : string) (indata : bytes)
    (status : ResponseStatus) : IO unit :=
  call (EvPrint (bytes2mac controllerID) req_type indata status) (Ok tt).

Definition log_bad_packet {A} (buf : bytes) (e : exn) : IO A := liftIO (Raise e).

Definition handle_request (m : module) (buf : bytes) : IO bytes :=
  try_except_BadMessageError
    ('(packet_head, payload) ← call (EvParsePacketHead buf) (parse_packet_head buf);
     key ← get_key_for_mac (controllerID packet_head);
     '(req_head, req_type, indata) ←
       call (EvParseR payload) (parse_r packet_head key payload);
     h ← liftIO (match process_request m !! req_type with
                 | Some h => Ok h
                 | None => Raise (KeyError req_type)
                 end);
     '(status, outdata) ← liftIO (h indata);
     _ ← log_message (controllerID packet_head) req_type indata status;
     call (EvMakeReply status outdata)
          (make_reply_for packet_head req_head key status outdata))
    (log_bad_packet buf).

End Collaborators.

(** *** Collaborators for the examples *)

(** Modelled from the spec: [parse_packet_head] of [controller_protocol],
    whose source is missing.  The head is one byte of protocol version,
    the 6 bytes of the controller's identifier and the 18 bytes of the
    nonce; the rest of the buffer is the payload.  A buffer shorter than
    the head, or a version other than [version], is a [BadMessageError]. *)
Definition split_packet_head (version : byte) (buf : bytes) : result (PacketHead * bytes) :=
  _ ← checkmsg (bool_decide (25 ≤ length buf)%nat) "packet too short";
  match buf with
  | v :: rest =>
      _ ← checkmsg (bool_decide (v = version)) "unknown protocol version";
      Ok ({| protocolVersion := v; controllerID := take 6 rest;
             nonce := take 18 (drop 6 rest) |}, drop 24 rest)
  | [] => Raise (BadMessageError "packet too short")
  end.

Definition hex_digit (n : nat) : ascii :=
  nth n (list_ascii_of_string "0123456789abcdef") "0"%char.

(** Modelled from the spec: [utils.bytes2mac], whose source is missing:
    the textual form of a hardware address, its octets in hexadecimal
    separated by colons. *)
Definition hex_bytes2mac (mac : bytes) : string :=
  String.concat ":"
    (map (λ b, String (hex_digit (Byte.to_nat b / 16))
                 (String (hex_digit (Byte.to_nat b mod 16)) EmptyString)) mac).

(** A packet from the controller aa:bb:cc:dd:ee:ff: version 1, a zero
    nonce and the payload [05 Hello]. *)
Definition packet_from_aabbccddeeff : bytes :=
  ["001"; "170"; "187"; "204"; "221"; "238"; "255"]%byte
  ++ replicate 18 "000"%byte ++ "005"%byte :: Hello.

(** A key store that knows one other controller. *)
Definition one_controller : list (string * bytes) :=
  [("11:22:33:44:55:66"%string, ["k"; "e"; "y"]%byte)].

End ControllerApi.

(** ** udpclient.py *)
Module Udpclient.
Import ControllerApi.


Section PrettyPrint.

(** [ResponseStatus(value)] finds the member of the enumeration that has
    this value: [status_name] gives its name, when there is one.
    [str_bytes] is [str(data)] for a byte string. *)
Variable status_name : Z → option string.
Variable str_bytes : bytes → string.




End PrettyPrint.

End Udpclient.

(** ** Properties of [fstring] and of the dispatch table *)
Module ControllerApiFacts.
Import ControllerApi.

Lemma fstring_cons (b0 : byte) (rest : bytes) :
  fstring (b0 :: rest) =
    if bool_decide (Byte.to_nat b0 ≤ length rest)%nat
    then Ok (take (Byte.to_nat b0) rest)
    else Raise (BadMessageError "fstring length > buffer size").
Proof.
  unfold fstring, checkmsg. simpl. rewrite drop_0.
  by case_bool_decide.
Qed.

(** C2, at the empty buffer: [buf[0]] raises [IndexError] before any
    check is made, so the failure is not a [BadMessageError]. *)
Theorem fstring_empty_buffer_IndexError :
  fstring [] = Raise (IndexError "index out of range")
  ∧ ∀ msg, fstring [] ≠ Raise (BadMessageError msg).
Proof. split; [reflexivity | intros msg; discriminate]. Qed.

(** The outcomes of [fstring]: the empty buffer is the only one on which
    it raises something else than [BadMessageError]. *)
Lemma fstring_outcomes (buf : bytes) :
  match fstring buf with
  | Ok s => ∃ b0 rest, buf = b0 :: rest ∧ s = take (Byte.to_nat b0) rest
  | Raise e =>
      (buf = [] ∧ e = IndexError "index out of range")
      ∨ (buf ≠ [] ∧ e = BadMessageError "fstring length > buffer size")
  end.
Proof.
  destruct buf as [|b0 rest]; [by left |].
  rewrite fstring_cons. case_bool_decide; [by eauto | by right].
Qed.

(** C5: a buffer whose first byte, read as the declared length, exceeds
    the number of bytes after it makes [fstring] fail with
    [BadMessageError], reason "fstring length > buffer size". *)
Theorem fstring_length_exceeds_buffer (b0 : byte) (rest : bytes) :
  (length rest < Byte.to_nat b0)%nat →
  fstring (b0 :: rest) = Raise (BadMessageError "fstring length > buffer size").
Proof.
  intros Hlt. rewrite fstring_cons.
  case_bool_decide; [lia | reflexivity].
Qed.

Lemma fstring_length_exceeds_buffer_witness :
  fstring ("006"%byte :: Hello) = Raise (BadMessageError "fstring length > buffer size").
Proof. apply fstring_length_exceeds_buffer. vm_compute. lia. Defined.

(** C10: when the declared length (the first byte) is at most the number
    of bytes that follow, [fstring] returns exactly that many bytes from
    after the length byte; whatever comes after them is ignored, not
    rejected. *)
Theorem fstring_returns_declared_prefix (b0 : byte) (rest : bytes) :
  (Byte.to_nat b0 ≤ length rest)%nat →
  fstring (b0 :: rest) = Ok (take (Byte.to_nat b0) rest)
  ∧ length (take (Byte.to_nat b0) rest) = Byte.to_nat b0
  ∧ ∀ trailing, fstring (b0 :: rest ++ trailing) = Ok (take (Byte.to_nat b0) rest).
Proof.
  intros Hle. split_and!.
  - rewrite fstring_cons. by rewrite bool_decide_eq_true_2.
  - rewrite length_take. lia.
  - intros trailing. rewrite fstring_cons, bool_decide_eq_true_2.
    + by rewrite take_app_le.
    + rewrite length_app. lia.
Qed.

Lemma fstring_returns_declared_prefix_witness :
  fstring ("005"%byte :: Hello ++ ["x"; "y"]%byte) = Ok Hello.
Proof.
  destruct (fstring_returns_declared_prefix "005"%byte Hello) as (_ & _ & H).
  - vm_compute. lia.
  - apply (H ["x"; "y"]%byte).
Defined.

(** C9: in the dispatch table of the loaded module, the handler of OPEN
    answers [(OK, None)] when the request data decodes, as an fstring, to
    the bytes Hello, and [(ERR, None)] when it decodes to anything else. *)
Theorem open_dispatch (MsgType : Enum) (m : module) :
  import_module MsgType = Ok m →
  ∃ h, process_request m !! "OPEN"%string = Some h
    ∧ (∀ data, fstring data = Ok Hello → h data = Ok (OK, None))
    ∧ (∀ data s, fstring data = Ok s → s ≠ Hello → h data = Ok (ERR, None)).
Proof.
  unfold import_module, getattr. intros Hm.
  case_bool_decide; [simpl in Hm | discriminate].
  case_bool_decide; [| discriminate]. simplify_eq. simpl.
  exists handle_OPEN. split_and!.
  - apply lookup_singleton_eq.
  - intros data Hd. unfold handle_OPEN. rewrite Hd.
    change (Ok (if bool_decide (Hello = Hello) then OK else ERR, None)
            = Ok (OK, @None bytes)).
    by rewrite bool_decide_eq_true_2.
  - intros data s Hd Hs. unfold handle_OPEN. rewrite Hd.
    change (Ok (if bool_decide (s = Hello) then OK else ERR, None)
            = Ok (ERR, @None bytes)).
    by rewrite bool_decide_eq_false_2.
Qed.

Lemma open_dispatch_witness :
  ∃ m h, import_module ["OPEN"%string] = Ok m
    ∧ process_request m !! "OPEN"%string = Some h
    ∧ h ("005"%byte :: Hello) = Ok (OK, None)
    ∧ h ("002"%byte :: Hello) = Ok (ERR, None).
Proof.
  assert (Hm : import_module ["OPEN"%string]
               = Ok {| process_request := {[ "OPEN"%string := handle_OPEN ]} |}).
  { vm_compute. reflexivity. }
  destruct (open_dispatch _ _ Hm) as (h & Hh & Hok & Herr).
  eexists _, h. split_and!; [exact Hm | exact Hh | |].
  - apply Hok. reflexivity.
  - apply (Herr _ ["H"; "e"]%byte); [reflexivity | discriminate].
Defined.

Lemma import_module_Ok (MsgType : Enum) (m : module) :
  import_module MsgType = Ok m →
  m = {| process_request := {[ "OPEN"%string := handle_OPEN ]} |}
  ∧ (list_to_set MsgType : gset string) = {[ "OPEN"%string ]}.
Proof.
  unfold import_module, getattr. intros Hm.
  case_bool_decide; [simpl in Hm | discriminate].
  case_bool_decide as Hset; [| discriminate].
  rewrite dom_singleton_L in Hset. by simplify_eq.
Qed.

(** C6: when the module loads, the declared message types are exactly
    the keys of the dispatch table and each has exactly one handler; and
    when [MsgType] declares a value that has no handler, loading the
    module fails, on the module-level assertion. *)
Theorem dispatch_exhaustive (MsgType : Enum) :
  (∀ m, import_module MsgType = Ok m →
     (list_to_set MsgType : gset string) = dom (process_request m)
     ∧ ∀ t, t ∈ MsgType →
         ∃ h, process_request m !! t = Some h
              ∧ ∀ h', process_request m !! t = Some h' → h' = h)
  ∧ (∀ t, t ∈ MsgType → t ≠ "OPEN"%string →
     ∃ e, import_module MsgType = Raise e
          ∧ ("OPEN"%string ∈ MsgType →
             e = AssertionError "Not all message types are handled")).
Proof.
  split.
  - intros m Hm. apply import_module_Ok in Hm as [-> Hset]. simpl.
    rewrite dom_singleton_L. split; [done |].
    intros t Ht.
    assert (t = "OPEN"%string) as ->.
    { apply (elem_of_singleton (C := gset string)). rewrite <- Hset.
      by apply elem_of_list_to_set. }
    exists handle_OPEN. rewrite lookup_singleton_eq. split; [done |].
    intros h' ?. by simplify_eq.
  - intros t Ht Hne. unfold import_module, getattr.
    case_bool_decide as Hopen; simpl.
    + case_bool_decide as Hset.
      * exfalso. apply Hne.
        apply (elem_of_singleton (C := gset string)).
        rewrite dom_singleton_L in Hset. rewrite <- Hset.
        by apply elem_of_list_to_set.
      * eauto.
    + eexists. split; [done | done].
Qed.

Lemma dispatch_exhaustive_witness :
  (∃ m h, import_module ["OPEN"%string] = Ok m
          ∧ process_request m !! "OPEN"%string = Some h)
  ∧ import_module ["OPEN"; "CLOSE"]%string
    = Raise (AssertionError "Not all message types are handled").
Proof.
  split.
  - destruct (dispatch_exhaustive ["OPEN"%string]) as [Hok _].
    destruct (Hok {| process_request := {[ "OPEN"%string := handle_OPEN ]} |})
      as [_ Hh]; [vm_compute; reflexivity |].
    destruct (Hh "OPEN"%string) as (h & Hl & _); [left |].
    eexists _, h. split; [vm_compute; reflexivity | exact Hl].
  - destruct (dispatch_exhaustive ["OPEN"; "CLOSE"]%string) as [_ Hfail].
    destruct (Hfail "CLOSE"%string) as (e & He & Hassert);
      [right; left | discriminate |].
    rewrite He. f_equal. apply Hassert. left.
Defined.

Section HandleRequest.

Variable parse_packet_head : bytes → result (PacketHead * bytes).
Variable parse_r : PacketHead → bytes → bytes → result (RequestHead * string * bytes).
Variable make_reply_for :
  PacketHead → RequestHead → bytes → ResponseStatus → option bytes → result bytes.
Variable bytes2mac : bytes → string.
Variable controller : list (string * bytes).

Lemma select_key_unknown (id : string) :
  (∀ key, (id, key) ∉ controller) →
  (filter (λ row, row.1 = id) controller).*2 = [].
Proof.
  intros Hno. destruct (filter _ controller) as [|[id' key] rows] eqn:Hf; [done |].
  assert (Hin : (id', key) ∈ filter (λ row : string * bytes, row.1 = id) controller).
  { rewrite Hf. left. }
  apply list_elem_of_filter in Hin as [Hid Hin]. simpl in Hid. subst id'.
  by destruct (Hno key).
Qed.

(** C4, as amended: when the head of a packet parses and the identifier
    of its controller has no row in the key store, handling the request
    fails with [BadMessageError], reason "unknown controllerID "; by then
    the head has been parsed and the key store queried, and the payload
    has not been handed to [parse_r]. *)
Theorem unknown_controller_rejected (m : module) (buf : bytes)
    (head : PacketHead) (payload : bytes) (tr : list event) :
  parse_packet_head buf = Ok (head, payload) →
  (∀ key, (bytes2mac (controllerID head), key) ∉ controller) →
  ∃ tr', handle_request parse_packet_head parse_r make_reply_for bytes2mac controller
           m buf tr
         = (Raise (BadMessageError "unknown controllerID "), tr ++ tr')
       ∧ tr' = [EvParsePacketHead buf; EvExecSql (bytes2mac (controllerID head))]
       ∧ ∀ p, EvParseR p ∉ tr'.
Proof.
  intros Hhead Hno. eexists. split_and!; [| reflexivity |].
  - unfold handle_request, try_except_BadMessageError.
    unfold mbind at 1, IO_bind. unfold call at 1. rewrite Hhead.
    unfold get_key_for_mac, exec_sql_select_key.
    unfold mbind, IO_bind, call.
    rewrite (select_key_unknown _ Hno). simpl.
    by rewrite <- app_assoc.
  - intros p Hin. repeat (apply elem_of_cons in Hin as [? | Hin]; [discriminate |]).
    by apply elem_of_nil in Hin.
Qed.

(** An OPEN request with no data at all, from a known controller: the
    [IndexError] of [fstring] is not caught by the [except] clause of
    [handle_request] and no reply is made. *)
Lemma handle_request_empty_OPEN (MsgType : Enum) (m : module) (buf : bytes)
    (head : PacketHead) (payload key : bytes) (req_head : RequestHead)
    (tr : list event) :
  import_module MsgType = Ok m →
  parse_packet_head buf = Ok (head, payload) →
  (filter (λ row, row.1 = bytes2mac (controllerID head)) controller).*2 = [key] →
  parse_r head key payload = Ok (req_head, "OPEN"%string, []) →
  handle_request parse_packet_head parse_r make_reply_for bytes2mac controller
    m buf tr
  = (Raise (IndexError "index out of range"),
     tr ++ [EvParsePacketHead buf; EvExecSql (bytes2mac (controllerID head));
            EvParseR payload]).
Proof.
  intros Hm Hhead Hkey Hr. apply import_module_Ok in Hm as [-> _].
  unfold handle_request, try_except_BadMessageError.
  unfold mbind at 1, IO_bind. unfold call at 1. rewrite Hhead.
  unfold get_key_for_mac, exec_sql_select_key.
  unfold mbind, IO_bind, call. rewrite Hkey. simpl. rewrite Hr. simpl.
  rewrite lookup_singleton_eq. simpl.
  by rewrite <- !app_assoc.
Qed.

End HandleRequest.

(** C4, as the specification words it: at a packet of a controller that
    the key store does not know, the reason carried by the error is not
    "unknown controller". *)
Lemma unknown_controller_reason_differs :
  let head := {| protocolVersion := "001"%byte;
                 controllerID := ["170"; "187"; "204"; "221"; "238"; "255"]%byte;
                 nonce := replicate 18 "000"%byte |} in
  let r := handle_request (split_packet_head "001"%byte)
             (λ _ _ _, Raise (BadMessageError "bad MAC")) (λ _ _ _ _ _, Ok [])
             hex_bytes2mac one_controller
             {| process_request := {[ "OPEN"%string := handle_OPEN ]} |}
             packet_from_aabbccddeeff [] in
  split_packet_head "001"%byte packet_from_aabbccddeeff = Ok (head, "005"%byte :: Hello)
  ∧ hex_bytes2mac (controllerID head) = "aa:bb:cc:dd:ee:ff"%string
  ∧ (∀ key, (hex_bytes2mac (controllerID head), key) ∉ one_controller)
  ∧ r.1 = Raise (BadMessageError "unknown controllerID ")
  ∧ r.1 ≠ Raise (BadMessageError "unknown controller").
Proof.
  split_and!.
  - vm_compute. reflexivity.
  - vm_compute. reflexivity.
  - intros key Hin. apply list_elem_of_singleton in Hin. discriminate.
  - vm_compute. reflexivity.
  - vm_compute. discriminate.
Qed.

Lemma unknown_controller_rejected_witness :
  ∃ tr', handle_request (split_packet_head "001"%byte)
           (λ _ _ _, Raise (BadMessageError "bad MAC")) (λ _ _ _ _ _, Ok [])
           hex_bytes2mac one_controller
           {| process_request := {[ "OPEN"%string := handle_OPEN ]} |}
           packet_from_aabbccddeeff []
         = (Raise (BadMessageError "unknown controllerID "), [] ++ tr')
       ∧ tr' = [EvParsePacketHead packet_from_aabbccddeeff; EvExecSql "aa:bb:cc:dd:ee:ff"]
       ∧ ∀ p, EvParseR p ∉ tr'.
Proof.
  apply (unknown_controller_rejected (split_packet_head "001"%byte) _ _
           hex_bytes2mac one_controller _ packet_from_aabbccddeeff
           {| protocolVersion := "001"%byte;
              controllerID := ["170"; "187"; "204"; "221"; "238"; "255"]%byte;
              nonce := replicate 18 "000"%byte |}
           ("005"%byte :: Hello) []).
  - vm_compute. reflexivity.
  - intros key Hin. apply list_elem_of_singleton in Hin. discriminate.
Defined.

End ControllerApiFacts.

(** ** Properties of the struct framework *)
Module StructdefFacts.
Import Dict Structdef.

(** *** Dictionaries *)

Lemma setitem_fresh {V} (d : dict V) (k : string) (v : V) :
  k ∉ keys d → setitem d k v = d ++ [(k, v)].
Proof.
  unfold keys. induction d as [|[k' v'] d IH]; simpl; [done |].
  intros Hk. apply not_elem_of_cons in Hk as [Hne Hk].
  rewrite decide_False by done. by rewrite IH.
Qed.

Lemma update_fresh {V} (kvs d : dict V) :
  NoDup (keys d ++ keys kvs) → update d kvs = d ++ kvs.
Proof.
  unfold update, keys. revert d.
  induction kvs as [|[k v] kvs IH]; intros d Hnd; simpl.
  - by rewrite app_nil_r.
  - rewrite setitem_fresh.
    + rewrite IH; [by rewrite <- app_assoc |].
      rewrite fmap_app. simpl. by rewrite <- app_assoc.
    + simpl in Hnd. apply NoDup_app in Hnd as (_ & Hd & _).
      intros Hin. apply (Hd k Hin). left.
Qed.

Lemma of_pairs_NoDup {V} (kvs : list (string * V)) :
  NoDup (keys kvs) → of_pairs kvs = kvs.
Proof. intros Hnd. unfold of_pairs. by rewrite update_fresh. Qed.

Lemma keys_zip {V} (ks : list string) (vs : list V) :
  length ks = length vs → keys (zip ks vs) = ks.
Proof. intros Hl. unfold keys. apply fst_zip. lia. Qed.


Lemma get_Some_key {V} (d : dict V) (k : string) (v : V) :
  get d k = Some v → k ∈ keys d.
Proof.
  unfold keys. induction d as [|[k' v'] d IH]; simpl; [done |].
  destruct (decide (k' = k)) as [-> | ?]; [left | right; eauto].
Qed.

(** In a dictionary zipped from distinct keys, each key has the value at
    its position. *)
Lemma get_zip_NoDup {V} (ks : list string) (vs : list V) :
  NoDup ks → length ks = length vs →
  Forall2 (λ k v, get (zip ks vs) k = Some v) ks vs.
Proof.
  intros Hnd Hl. revert vs Hl.
  induction Hnd as [|k ks Hk Hnd IH]; intros [|v vs] Hl; simplify_eq/=;
    constructor.
  - by rewrite decide_True.
  - eapply Forall2_impl; [by apply IH |].
    intros k' v' Hget. simpl.
    destruct (decide (k = k')) as [<- | Hne]; [| done].
    exfalso. apply Hk. apply get_Some_key in Hget.
    rewrite keys_zip in Hget; [done | by simplify_eq/=].
Qed.

(** *** The monad *)

Lemma bind_Ok {A B} (m : M A) (f : A → M B) st a st' :
  m st = Ok (a, st') → (m ≫= f) st = f a st'.
Proof. intros H. unfold mbind, M_bind. by rewrite H. Qed.

Lemma bind_Raise {A B} (m : M A) (f : A → M B) st e :
  m st = Raise e → (m ≫= f) st = Raise e.
Proof. intros H. unfold mbind, M_bind. by rewrite H. Qed.

Lemma bind_inv {A B} (m : M A) (f : A → M B) st b st2 :
  (m ≫= f) st = Ok (b, st2) →
  ∃ a st1, m st = Ok (a, st1) ∧ f a st1 = Ok (b, st2).
Proof.
  unfold mbind, M_bind. destruct (m st) as [[a st1]|e]; [eauto | discriminate].
Qed.

(** *** Chains *)

Lemma coerce_chain_length ts vs st xs st' :
  coerce_chain ts vs st xs st' →
  length vs = length ts ∧ length xs = length ts.
Proof. induction 1; simpl; [done | lia]. Qed.


(** The loop of [unpack_from] follows the chain of the fields. *)
Lemma unpack_fields_chain ts buf st vs rest st' :
  decode_chain ts buf st vs rest st' →
  ∀ vals, unpack_fields ts vals buf st = Ok ((vals ++ vs, rest), st').
Proof.
  induction 1 as [|t ts buf st v buf1 st1 vs buf2 st2 Ht _ IH]; intros vals; simpl.
  - by rewrite app_nil_r.
  - erewrite bind_Ok by exact Ht. simpl.
    rewrite IH. by rewrite <- app_assoc.
Qed.

Lemma unpack_fields_fail ts1 buf st vs buf1 st1 :
  decode_chain ts1 buf st vs buf1 st1 →
  ∀ t ts2 e vals,
    ty_unpack_from t buf1 st1 = Raise e →
    unpack_fields (ts1 ++ t :: ts2) vals buf st = Raise e.
Proof.
  induction 1 as [|t0 ts buf st v buf1 st1 vs buf2 st2 Ht _ IH];
    intros t ts2 e vals He; simpl.
  - by erewrite bind_Raise.
  - erewrite bind_Ok by exact Ht. simpl. by apply IH.
Qed.

(** *** The constructor *)

Lemma convert_items_chain (ft : dict PyType) ts vs st xs st' :
  coerce_chain ts vs st xs st' →
  ∀ ks acc,
    Forall2 (λ k t, get ft k = Some t) ks ts →
    NoDup (keys acc ++ ks) →
    convert_items ft (zip ks vs) acc st = Ok (acc ++ zip ks xs, st').
Proof.
  induction 1 as [|t ts v vs st x st1 xs st2 Hcall _ IH]; intros ks acc Hft Hnd.
  - apply Forall2_nil_inv_r in Hft as ->. simpl. by rewrite app_nil_r.
  - apply Forall2_cons_inv_r in Hft as (k & ks' & Hk & Hft & ->). simpl.
    unfold getitem. rewrite Hk. simpl.
    erewrite bind_Ok by reflexivity.
    erewrite bind_Ok by exact Hcall.
    assert (Hfresh : k ∉ keys acc).
    { apply NoDup_app in Hnd as (_ & Hd & _). intros Hin. apply (Hd k Hin). left. }
    rewrite setitem_fresh by done.
    rewrite IH; [by rewrite <- app_assoc | done |].
    unfold keys in *. rewrite fmap_app. simpl. by rewrite <- app_assoc.
Qed.

Lemma mapM_get (d : dict object) (ks : list string) (vs : list object) (msg : string) :
  Forall2 (λ k v, get d k = Some v) ks vs →
  mapM (λ f, match get d f with
             | Some v => Ok v
             | None => Raise (TypeError msg)
             end) ks = Ok vs.
Proof.
  induction 1 as [|k v ks vs Hk _ IH]; simpl; [done |].
  rewrite Hk. simpl. unfold mbind at 1. simpl. by rewrite IH.
Qed.

Lemma namedtuple_new_zip (cls : Cls) (xs : list object) st :
  NoDup (_fields cls) → length (_fields cls) = length xs →
  namedtuple_new cls (zip (_fields cls) xs) st
  = Ok (PyTuple (cls_id cls) st xs, S st).
Proof.
  intros Hnd Hl. unfold namedtuple_new.
  rewrite keys_zip by done.
  assert (Hall : forallb (λ k, bool_decide (k ∈ _fields cls)) (_fields cls) = true).
  { apply forallb_forall. intros k Hk. apply bool_decide_eq_true_2.
    by apply list_elem_of_In. }
  rewrite Hall. simpl.
  rewrite (mapM_get _ _ xs) by by apply get_zip_NoDup.
  reflexivity.
Qed.

(** The constructor on positional arguments, one for each field, when
    the shortcut for an existing instance does not apply: the arguments
    go through the constructors of the field types in field order, and
    the results make a new tuple of class [cls]. *)
Lemma new_positional (cls : Cls) (args : list object) st xs st' :
  NoDup (_fields cls) →
  length (_fields cls) = length (_fieldtypes cls) →
  (∀ x, args = [x] → class_of x ≠ cls_id cls) →
  coerce_chain (_fieldtypes cls) args st xs st' →
  __new__ cls args [] st = Ok (PyTuple (cls_id cls) st' xs, S st').
Proof.
  intros Hnd Hl Hcls Hc.
  destruct (coerce_chain_length _ _ _ _ _ Hc) as [Hla Hlx].
  unfold __new__.
  assert (Hnot : bool_decide (length args = 1) && bool_decide (length (@nil (string * object)) = 0)
                 && from_option (λ x, bool_decide (class_of x = cls_id cls)) false (args !! 0)
                 = false).
  { destruct args as [|x [|x' args]]; simpl; [done | | done].
    rewrite bool_decide_eq_false_2; [done | by apply Hcls]. }
  rewrite Hnot. simpl.
  rewrite bool_decide_eq_true_2 by lia. simpl.
  rewrite !of_pairs_NoDup by (rewrite keys_zip; [done | lia]).
  erewrite bind_Ok.
  2:{ apply (convert_items_chain _ _ _ _ _ _ Hc (_fields cls) []).
      - apply get_zip_NoDup; [done | lia].
      - done. }
  simpl. apply namedtuple_new_zip; [done | lia].
Qed.

(** *** The struct builder *)

Lemma check_field_names_NoDup (names seen : list string) :
  check_field_names seen names = Ok tt →
  NoDup names ∧ ∀ k, k ∈ names → k ∉ seen.
Proof.
  revert seen. induction names as [|name names IH]; intros seen; simpl.
  - intros _. split; [constructor | intros k Hk; by apply elem_of_nil in Hk].
  - destruct (startswith_underscore name); [discriminate |].
    case_bool_decide as Hseen; [discriminate |].
    intros Hrest. apply IH in Hrest as [Hnd Hdisj]. split.
    + constructor; [| done]. intros Hin. apply (Hdisj name Hin). left.
    + intros k Hk. apply elem_of_cons in Hk as [-> | Hk]; [done |].
      intros Hin. apply (Hdisj k Hk). by right.
Qed.

(** What [struct] returns when it returns: a new class whose field names
    and field types are the two columns of [fields], with at least one
    field and no name twice. *)
Lemma struct_Ok (name : string) (fields : list (PyType * string)) st T st' :
  struct name fields st = Ok (T, st') →
  fields ≠ []
  ∧ _fieldtypes T = fields.*1
  ∧ _fields T = fields.*2
  ∧ NoDup (_fields T)
  ∧ length (_fields T) = length (_fieldtypes T)
  ∧ cls_id T = S st ∧ st' = S (S st).
Proof.
  unfold struct. intros H.
  destruct fields as [|f fields]; [discriminate |].
  apply bind_inv in H as ([fieldtypes fieldnames] & st1 & H1 & H).
  cbv [lift unzip] in H1. injection H1 as <- <- <-.
  apply bind_inv in H as ([] & st1 & Hcheck & H).
  unfold lift in Hcheck.
  destruct (namedtuple_check _ _) as [[]|e] eqn:Hnames; [| discriminate].
  injection Hcheck as <-.
  unfold namedtuple_check in Hnames.
  destruct (mapM check_identifier _) as [us|e]; [| discriminate].
  cbv beta iota delta [mbind result_bind] in Hnames.
  apply check_field_names_NoDup in Hnames as [Hnd _].
  cbv [mbind M_bind fresh mret M_ret] in H. injection H as <- <-.
  cbn [_fields _fieldtypes cls_id].
  split_and!; try done.
  change (length ((f :: fields).*2) = length ((f :: fields).*1)).
  by rewrite !length_fmap.
Qed.

(** *** Construction from an existing instance *)

(** C7: for a struct class [cls] and an object [x] whose class is [cls],
    the constructor called with [x] alone returns [x] itself, the same
    object, and creates nothing; doing it again changes nothing. *)
Theorem struct_identity_reuse (classes : nat → option Cls) (cls : Cls)
    (x : object) (st : nat) :
  class_of x = cls_id cls →
  __new__ cls [x] [] st = Ok (x, st)
  ∧ ty_call (StructType classes cls) x st = Ok (x, st)
  ∧ (__new__ cls [x] [] ≫= λ y, __new__ cls [y] []) st = Ok (x, st)
  ∧ py_is x x = true.
Proof.
  intros Hcls.
  assert (Hnew : __new__ cls [x] [] st = Ok (x, st)).
  { unfold __new__. simpl. by rewrite bool_decide_eq_true_2. }
  split_and!; [done | done | | by apply bool_decide_eq_true_2].
  by erewrite bind_Ok by exact Hnew.
Qed.

Lemma struct_identity_reuse_witness :
  ∃ T x, struct "Pair" [(Uint8 1, "a"%string); (Uint8 1, "b"%string)] 10 = Ok (T, 12)
       ∧ __new__ T [PyInt 0 20 3; PyInt 0 21 4] [] 30 = Ok (x, 33)
       ∧ __new__ T [x] [] 33 = Ok (x, 33).
Proof.
  eexists _, _. split_and!; [vm_compute; reflexivity | vm_compute; reflexivity |].
  apply (struct_identity_reuse (λ _, None)). reflexivity.
Defined.

(** *** Decoding a struct *)

(** C8: [unpack_from] of a struct class applies the [unpack_from] of the
    field types in declaration order, each to the remainder left by the
    one before; it passes the values, in that order, to the constructor
    and returns the instance with the last remainder.  When a field
    fails, its error is the result, whatever the later fields are.  For
    a class made by [struct], the instance is a new tuple of that class
    holding the constructed values in field order. *)
Theorem unpack_from_sequential (cls : Cls) (buf : bytes) (st : nat) :
  (∀ vals rest st',
     decode_chain (_fieldtypes cls) buf st vals rest st' →
     unpack_from cls buf st = (x ← __new__ cls vals []; mret (x, rest)) st')
  ∧ (∀ ts1 t ts2 vals buf1 st1 e,
       _fieldtypes cls = ts1 ++ t :: ts2 →
       decode_chain ts1 buf st vals buf1 st1 →
       ty_unpack_from t buf1 st1 = Raise e →
       unpack_from cls buf st = Raise e)
  ∧ (∀ name fields st0 st0' vals rest st' xs st'',
       struct name fields st0 = Ok (cls, st0') →
       decode_chain (_fieldtypes cls) buf st vals rest st' →
       Forall (λ v, class_of v ≠ cls_id cls) vals →
       coerce_chain (_fieldtypes cls) vals st' xs st'' →
       unpack_from cls buf st = Ok ((PyTuple (cls_id cls) st'' xs, rest), S st'')).
Proof.
  split_and!.
  - intros vals rest st' Hc. unfold unpack_from.
    erewrite bind_Ok by (apply (unpack_fields_chain _ _ _ _ _ _ Hc [])).
    reflexivity.
  - intros ts1 t ts2 vals buf1 st1 e Hts Hc He. unfold unpack_from.
    rewrite Hts. erewrite bind_Raise; [done |].
    by eapply unpack_fields_fail.
  - intros name fields st0 st0' vals rest st' xs st'' Hs Hc Hcls Hco.
    apply struct_Ok in Hs as (_ & _ & _ & Hnd & Hl & _).
    unfold unpack_from.
    erewrite bind_Ok by (apply (unpack_fields_chain _ _ _ _ _ _ Hc [])).
    simpl. erewrite bind_Ok; [reflexivity |].
    apply new_positional; [done | done | | done].
    intros x ->. exact (proj1 (Forall_singleton _ _) Hcls).
Qed.

Lemma unpack_from_sequential_witness :
  ∃ T, struct "Pair" [(Uint8 1, "a"%string); (Uint8 1, "b"%string)] 10 = Ok (T, 12)
     ∧ unpack_from T ["003"; "004"; "005"]%byte 20
       = Ok ((PyTuple 11 24 [PyInt 1 22 3; PyInt 1 23 4], ["005"%byte]), 25)
     ∧ unpack_from T ["003"%byte] 20
       = Raise (ValueError "unpack requires a buffer of 1 bytes").
Proof.
  eexists. split; [vm_compute; reflexivity |].
  match goal with |- unpack_from ?T _ _ = _ ∧ _ => set (cls := T) end.
  destruct (unpack_from_sequential cls ["003"; "004"; "005"]%byte 20) as (_ & _ & Hok).
  destruct (unpack_from_sequential cls ["003"%byte] 20) as (_ & Hfail & _).
  split.
  - apply (Hok "Pair"%string [(Uint8 1, "a"%string); (Uint8 1, "b"%string)] 10 12
               [PyInt 1 20 3; PyInt 1 21 4] ["005"%byte] 22).
    + vm_compute. reflexivity.
    + repeat (econstructor; try (vm_compute; reflexivity)).
    + repeat first [apply Forall_nil_2 | apply Forall_cons_2; [vm_compute; lia |]].
    + repeat (econstructor; try (vm_compute; reflexivity)).
  - apply (Hfail [Uint8 1] (Uint8 1) [] [PyInt 1 20 3] [] 21).
    + reflexivity.
    + repeat (econstructor; try (vm_compute; reflexivity)).
    + vm_compute. reflexivity.
Defined.

(** *** Exact size *)

Lemma unpack_fields_size ts ns :
  Forall2 has_size ts ns →
  ∀ vals buf st vs rest st',
    unpack_fields ts vals buf st = Ok ((vs, rest), st') →
    (sum_list ns ≤ length buf)%nat ∧ rest = drop (sum_list ns) buf.
Proof.
  induction 1 as [|t n ts ns Ht _ IH]; intros vals buf st vs rest st' Hu; simpl in *.
  - injection Hu as <- <- <-. split; [lia | done].
  - apply bind_inv in Hu as ([v buf1] & st1 & Hv & Hu).
    apply Ht in Hv as [Hn ->]. apply IH in Hu as [Hs ->].
    rewrite length_drop in Hs. split; [lia |].
    by rewrite drop_drop.
Qed.

(** A struct whose field types have sizes has their sum as its size. *)
Lemma struct_has_size (classes : nat → option Cls) (cls : Cls) (ns : list nat) :
  Forall2 has_size (_fieldtypes cls) ns →
  has_size (StructType classes cls) (sum_list ns).
Proof.
  intros Hts buf st x rest st' Hu. simpl in Hu. unfold unpack_from in Hu.
  apply bind_inv in Hu as ([vals buf1] & st1 & Hf & Hu).
  apply bind_inv in Hu as (y & st2 & _ & Hu).
  injection Hu as <- <- <-.
  by eapply unpack_fields_size.
Qed.

Lemma Uint8_has_size (cid : nat) : has_size (Uint8 cid) 1.
Proof.
  intros [|b buf] st x rest st' Hu; simpl in Hu; [discriminate |].
  injection Hu as <- <- <-. simpl. split; [lia | by rewrite drop_0].
Qed.

(** C3: [unpack] fails with [ValueError] whenever [unpack_from] leaves a
    remainder that is not empty; it succeeds only where [unpack_from]
    consumes the whole buffer, hence, for a type that has a size, only
    on a buffer of exactly that length. *)
Theorem unpack_exact (T : PyType) (buf : bytes) (st : nat) :
  (∀ x rest st',
     ty_unpack_from T buf st = Ok ((x, rest), st') → rest ≠ [] →
     unpack T buf st = Raise (ValueError "buffer size != struct size"))
  ∧ (∀ x st',
       unpack T buf st = Ok (x, st') →
       ty_unpack_from T buf st = Ok ((x, []), st'))
  ∧ (∀ n x st',
       has_size T n → unpack T buf st = Ok (x, st') → length buf = n).
Proof.
  assert (Hempty : ∀ x st', unpack T buf st = Ok (x, st') →
                            ty_unpack_from T buf st = Ok ((x, []), st')).
  { intros x st' Hu. unfold unpack in Hu.
    apply bind_inv in Hu as ([y rest] & st1 & Hf & Hu).
    destruct rest as [|b rest]; simpl in Hu; [| discriminate].
    by injection Hu as <- <-. }
  split_and!; [| done |].
  - intros x rest st' Hf Hne. unfold unpack.
    erewrite bind_Ok by exact Hf.
    destruct rest as [|b rest]; [done | reflexivity].
  - intros n x st' Hsize Hu. apply Hempty in Hu.
    apply Hsize in Hu as [Hn Hrest].
    apply (f_equal length) in Hrest. rewrite length_drop in Hrest.
    simpl in Hrest. lia.
Qed.

Lemma unpack_exact_witness :
  unpack (StructType (only_class Pair) Pair) ["003"; "004"; "005"]%byte 20
  = Raise (ValueError "buffer size != struct size")
  ∧ length ["003"; "004"]%byte = 2.
Proof.
  split.
  - destruct (unpack_exact (StructType (only_class Pair) Pair)
                ["003"; "004"; "005"]%byte 20) as (Hrest & _ & _).
    eapply Hrest; [vm_compute; reflexivity | discriminate].
  - destruct (unpack_exact (StructType (only_class Pair) Pair)
                ["003"; "004"]%byte 20) as (_ & _ & Hsize).
    eapply (Hsize 2).
    + apply (struct_has_size _ Pair [1; 1]).
      repeat first [apply Forall2_nil_2 | apply Forall2_cons_2; [apply Uint8_has_size |]].
    + vm_compute. reflexivity.
Defined.

(** *** Round trip *)

Lemma py_eq_tuple c1 o1 c2 o2 (zs xs : list object) :
  Forall2 (λ z x, py_eq z x = true) zs xs →
  py_eq (PyTuple c1 o1 zs) (PyTuple c2 o2 xs) = true.
Proof.
  simpl. induction 1 as [|z x zs xs Hzx _ IH]; [done |].
  rewrite Hzx. exact IH.
Qed.

(** The fields of an instance, packed one after the other, decode one
    after the other to values that the constructors turn into values
    equal to the fields. *)
Lemma fields_roundtrip (T : Cls) (ts : list PyType) (items : list object) :
  Forall2 (field_law T) ts items →
  ∃ bs, mapM (λ tx : PyType * object, ty_pack tx.1 tx.2) (zip ts items) = Ok bs
      ∧ ∀ rest st, ∃ ys st',
          decode_chain ts (concat bs ++ rest) st ys rest st'
          ∧ Forall (λ y, class_of y ≠ cls_id T) ys
          ∧ ∀ st2, ∃ zs st3,
              coerce_chain ts ys st2 zs st3
              ∧ Forall2 (λ z x, py_eq z x = true) zs items.
Proof.
  induction 1 as [|t x ts items (b & Hpack & Hdec) _ (bs & Hbs & IH)].
  - exists []. split; [done |]. intros rest st.
    exists [], st. split_and!; [constructor | constructor |].
    intros st2. exists [], st2. split; constructor.
  - exists (b :: bs). split.
    + simpl. rewrite Hpack. unfold mbind at 1. simpl. by rewrite Hbs.
    + intros rest st.
      destruct (Hdec (concat bs ++ rest) st) as (y & st1 & Hy & Hcls & Hcall).
      destruct (IH rest st1) as (ys & st' & Hys & Hclss & Hcalls).
      exists (y :: ys), st'. split_and!.
      * simpl. rewrite <- app_assoc. econstructor; eauto.
      * by constructor.
      * intros st2. destruct (Hcall st2) as (z & st3 & Hz & Heq).
        destruct (Hcalls st3) as (zs & st4 & Hzs & Heqs).
        exists (z :: zs), st4. split; [econstructor; eauto | by constructor].
Qed.

(** Packing an instance and decoding the bytes, whatever follows them. *)
Lemma struct_framed (classes : nat → option Cls) (T : Cls) (oid : nat)
    (items : list object) :
  NoDup (_fields T) →
  length (_fields T) = length (_fieldtypes T) →
  classes (cls_id T) = Some T →
  Forall2 (field_law T) (_fieldtypes T) items →
  ∃ b, pack classes (PyTuple (cls_id T) oid items) = Ok b
     ∧ ∀ rest st, ∃ y st',
         unpack_from T (b ++ rest) st = Ok ((y, rest), st')
         ∧ class_of y = cls_id T
         ∧ py_eq y (PyTuple (cls_id T) oid items) = true.
Proof.
  intros Hnd Hl Hcls Hfields.
  destruct (fields_roundtrip _ _ _ Hfields) as (bs & Hbs & Hdec).
  exists (concat bs). split.
  - simpl. rewrite Hcls. by rewrite Hbs.
  - intros rest st.
    destruct (Hdec rest st) as (ys & st1 & Hys & Hclss & Hcalls).
    destruct (Hcalls st1) as (zs & st2 & Hzs & Heqs).
    exists (PyTuple (cls_id T) st2 zs), (S st2). split_and!.
    + unfold unpack_from.
      erewrite bind_Ok by (apply (unpack_fields_chain _ _ _ _ _ _ Hys [])).
      simpl. erewrite bind_Ok; [reflexivity |].
      apply new_positional; [done | done | | done].
      intros x ->. exact (proj1 (Forall_singleton _ _) Hclss).
    + reflexivity.
    + by apply py_eq_tuple.
Qed.

(** C1, as amended: for a struct class [T] made by [struct] and an
    instance of [T] whose fields satisfy [field_law], unpacking the bytes
    that [pack] produces succeeds and gives a value equal to the
    instance.  The instance in turn satisfies [field_law] as a field of
    any other struct class, so the law carries over to nested structs. *)
Theorem struct_roundtrip (classes : nat → option Cls) (name : string)
    (fields : list (PyType * string)) (st0 st0' : nat) (T : Cls)
    (oid : nat) (items : list object) :
  struct name fields st0 = Ok (T, st0') →
  classes (cls_id T) = Some T →
  Forall2 (field_law T) (_fieldtypes T) items →
  roundtrip_law (StructType classes T) (PyTuple (cls_id T) oid items)
  ∧ ∀ T', cls_id T' ≠ cls_id T →
      field_law T' (StructType classes T) (PyTuple (cls_id T) oid items).
Proof.
  intros Hs Hcls Hfields.
  apply struct_Ok in Hs as (_ & _ & _ & Hnd & Hl & _).
  destruct (struct_framed classes T oid items Hnd Hl Hcls Hfields)
    as (b & Hpack & Hdec).
  split.
  - exists b. split; [done |]. intros st.
    destruct (Hdec [] st) as (y & st' & Hy & _ & Heq).
    rewrite app_nil_r in Hy. exists y, st'. split; [| done].
    unfold unpack. by erewrite bind_Ok by exact Hy.
  - intros T' Hne. exists b. split; [done |]. intros rest st.
    destruct (Hdec rest st) as (y & st' & Hy & Hc & Heq).
    exists y, st'. split_and!; [done | congruence |].
    intros st2. exists y, st2. split; [| done].
    simpl. unfold __new__. simpl. by rewrite bool_decide_eq_true_2.
Qed.

Lemma Uint8_field_law (T : Cls) (cid c o : nat) (n : Z) :
  cid ≠ cls_id T → (0 ≤ n < 256)%Z →
  field_law T (Uint8 cid) (PyInt c o n).
Proof.
  intros Hcid Hn.
  destruct (Byte.of_nat (Z.to_nat n)) as [b|] eqn:Hb.
  2:{ apply Byte.of_nat_None_iff in Hb. lia. }
  exists [b]. split.
  - simpl. rewrite Hb. by rewrite bool_decide_eq_true_2 by lia.
  - intros rest st. eexists _, _. split_and!; [reflexivity | done |].
    intros st2. eexists _, _. split; [reflexivity |].
    simpl. apply bool_decide_eq_true_2.
    apply Byte.to_of_nat in Hb. rewrite Hb. lia.
Qed.

Lemma struct_roundtrip_witness :
  roundtrip_law (StructType (only_class Pair) Pair)
    (PyTuple 11 24 [PyInt 1 22 3; PyInt 1 23 4]).
Proof.
  apply (struct_roundtrip (only_class Pair) "Pair"
           [(Uint8 1, "a"%string); (Uint8 1, "b"%string)] 10 12 Pair 24
           [PyInt 1 22 3; PyInt 1 23 4]).
  - vm_compute. reflexivity.
  - vm_compute. reflexivity.
  - repeat first [apply Forall2_nil_2
                 | apply Forall2_cons_2; [apply Uint8_field_law; simpl; lia |]].
Defined.

Lemma byte_roundtrip_law (t : PyType) (cid c o : nat) (n : Z) :
  ty_unpack_from t = ty_unpack_from (Uint8 cid) ∨ ty_unpack_from t = ty_unpack_from (Strict cid) →
  ty_pack t = ty_pack (Uint8 cid) →
  (0 ≤ n < 256)%Z →
  roundtrip_law t (PyInt c o n).
Proof.
  intros Hu Hp Hn.
  destruct (Byte.of_nat (Z.to_nat n)) as [b|] eqn:Hb.
  2:{ apply Byte.of_nat_None_iff in Hb. lia. }
  exists [b]. split.
  - rewrite Hp. simpl. rewrite Hb. by rewrite bool_decide_eq_true_2 by lia.
  - intros st. eexists _, _. split.
    + unfold unpack. destruct Hu as [-> | ->]; reflexivity.
    + simpl. apply bool_decide_eq_true_2.
      apply Byte.to_of_nat in Hb. rewrite Hb. lia.
Qed.

(** C1, as the specification words it, at a field type of size 1 that
    satisfies the round-trip law: the constructor of [Flip] keeps the
    complement of the value it is given, and the constructor of the
    struct passes every decoded field through it.  The instance made
    from 3 holds 252 and packs to the byte 252, which unpacks to an
    instance holding 3. *)
Lemma roundtrip_broken_by_field_constructor :
  let v := PyTuple 11 21 [PyInt 1 20 252] in
  struct "Flipped" [(Flip 1, "a"%string)] 10 = Ok (Flipped, 12)
  ∧ has_size (Flip 1) 1
  ∧ (∀ c o n, (0 ≤ n < 256)%Z → roundtrip_law (Flip 1) (PyInt c o n))
  ∧ __new__ Flipped [PyInt 0 19 3] [] 20 = Ok (v, 22)
  ∧ pack (only_class Flipped) v = Ok ["252"%byte]
  ∧ unpack (StructType (only_class Flipped) Flipped) ["252"%byte] 30
    = Ok (PyTuple 11 32 [PyInt 1 31 3], 33)
  ∧ ¬ roundtrip_law (StructType (only_class Flipped) Flipped) v.
Proof.
  split_and!.
  - vm_compute. reflexivity.
  - exact (Uint8_has_size 1).
  - intros c o n Hn. apply (byte_roundtrip_law _ 1); [by left | done | done].
  - vm_compute. reflexivity.
  - vm_compute. reflexivity.
  - vm_compute. reflexivity.
  - intros (b & Hpack & Hun).
    assert (b = ["252"%byte]) as ->.
    { vm_compute in Hpack. by injection Hpack. }
    destruct (Hun 30) as (y & st' & Hy & Heq).
    vm_compute in Hy. injection Hy as <- <-.
    vm_compute in Heq. discriminate.
Qed.

Lemma Strict_has_size (cid : nat) : has_size (Strict cid) 1.
Proof.
  intros [|b [|b' buf]] st x rest st' Hu; simpl in Hu; try discriminate.
  injection Hu as <- <- <-. simpl. split; [lia | done].
Qed.

(** The same at a field type of size 1 whose [unpack_from] fails when
    anything follows its byte: each field round-trips alone, and the
    bytes of an instance with two such fields do not unpack at all,
    the first field being given both bytes. *)
Lemma roundtrip_broken_by_strict_field :
  let v := PyTuple 11 22 [PyInt 1 20 3; PyInt 1 21 4] in
  struct "Stricts" [(Strict 1, "a"%string); (Strict 1, "b"%string)] 10 = Ok (Stricts, 12)
  ∧ has_size (Strict 1) 1
  ∧ (∀ c o n, (0 ≤ n < 256)%Z → roundtrip_law (Strict 1) (PyInt c o n))
  ∧ (∀ c o n st, ∃ z st', ty_call (Strict 1) (PyInt c o n) st = Ok (z, st')
                          ∧ py_eq z (PyInt c o n) = true)
  ∧ __new__ Stricts [PyInt 0 18 3; PyInt 0 19 4] [] 20 = Ok (v, 23)
  ∧ pack (only_class Stricts) v = Ok ["003"; "004"]%byte
  ∧ unpack (StructType (only_class Stricts) Stricts) ["003"; "004"]%byte 30
    = Raise (ValueError "unpack requires a buffer of 1 bytes")
  ∧ ¬ roundtrip_law (StructType (only_class Stricts) Stricts) v.
Proof.
  split_and!.
  - vm_compute. reflexivity.
  - apply Strict_has_size.
  - intros c o n Hn. apply (byte_roundtrip_law _ 1); [by right | done | done].
  - intros c o n st. eexists _, _. split; [reflexivity |].
    simpl. by apply bool_decide_eq_true_2.
  - vm_compute. reflexivity.
  - vm_compute. reflexivity.
  - vm_compute. reflexivity.
  - intros (b & Hpack & Hun).
    assert (b = ["003"; "004"]%byte) as ->.
    { vm_compute in Hpack. by injection Hpack. }
    destruct (Hun 30) as (y & st' & Hy & _).
    vm_compute in Hy. discriminate.
Qed.

Lemma Own_has_size (cid : nat) : has_size (Own cid) 1.
Proof.
  intros [|b buf] st x rest st' Hu; simpl in Hu; [discriminate |].
  injection Hu as <- <- <-. simpl. split; [lia | by rewrite drop_0].
Qed.

Lemma Own_roundtrip_law (cid c o c' o' : nat) (n : Z) :
  (0 ≤ n < 256)%Z →
  roundtrip_law (Own cid) (PyTuple c o [PyInt c' o' n]).
Proof.
  intros Hn.
  destruct (Byte.of_nat (Z.to_nat n)) as [b|] eqn:Hb.
  2:{ apply Byte.of_nat_None_iff in Hb. lia. }
  exists [b]. split.
  - simpl. rewrite Hb. by rewrite bool_decide_eq_true_2 by lia.
  - intros st. eexists _, _. split; [reflexivity |].
    simpl. rewrite andb_true_r. apply bool_decide_eq_true_2.
    apply Byte.to_of_nat in Hb. rewrite Hb. lia.
Qed.

(** The same at a field type of size 1 whose values are instances of
    the struct class itself, and whose constructor returns its argument:
    the one decoded value is then taken by the constructor of the struct
    for an existing instance and returned as it is, where the instance
    that was packed holds it as its field. *)
Lemma roundtrip_broken_by_own_instance :
  let x := PyTuple 11 19 [PyInt 0 18 5] in
  let v := PyTuple 11 20 [x] in
  struct "Owned" [(Own 11, "a"%string)] 10 = Ok (Owned, 12)
  ∧ has_size (Own 11) 1
  ∧ (∀ c o c' o' n, (0 ≤ n < 256)%Z →
       roundtrip_law (Own 11) (PyTuple c o [PyInt c' o' n]))
  ∧ (∀ y st, ty_call (Own 11) y st = Ok (y, st))
  ∧ __new__ Owned [] [("a"%string, x)] 20 = Ok (v, 21)
  ∧ pack (only_class Owned) v = Ok ["005"%byte]
  ∧ unpack (StructType (only_class Owned) Owned) ["005"%byte] 30
    = Ok (PyTuple 11 31 [PyInt 0 30 5], 32)
  ∧ ¬ roundtrip_law (StructType (only_class Owned) Owned) v.
Proof.
  split_and!.
  - vm_compute. reflexivity.
  - apply Own_has_size.
  - intros c o c' o' n Hn. by apply Own_roundtrip_law.
  - reflexivity.
  - vm_compute. reflexivity.
  - vm_compute. reflexivity.
  - vm_compute. reflexivity.
  - intros (b & Hpack & Hun).
    assert (b = ["005"%byte]) as ->.
    { vm_compute in Hpack. by injection Hpack. }
    destruct (Hun 30) as (y & st' & Hy & Heq).
    vm_compute in Hy. injection Hy as <- <-.
    vm_compute in Heq. discriminate.
Qed.

End StructdefFacts.

(** ** More on the constructor, the builder and the codec of structs *)
Module StructdefMore.
Import Dict Structdef StructdefFacts.

(** The test that opens [__new__]: whether it takes the shortcut for an
    existing instance. *)
Lemma shortcut_false (cls : Cls) (args : list object) (kwargs : list (string * object)) :
  (∀ x, args = [x] → kwargs = [] → class_of x ≠ cls_id cls) →
  bool_decide (length args = 1) && bool_decide (length kwargs = 0)
  && from_option (λ x, bool_decide (class_of x = cls_id cls)) false (args !! 0)
  = false.
Proof.
  intros Hno. destruct args as [|x [|x' args]]; [done | | done].
  destruct kwargs as [|kv kwargs]; [| done]. simpl.
  rewrite bool_decide_eq_false_2; [done | by apply Hno].
Qed.


(** X1: unless it is given one existing instance and nothing else, the
    constructor called with a number of arguments, positional and
    keyword together, other than the number of fields raises
    [TypeError]; when no keyword is named [cls], the message is the one
    of the constructor, with the number of fields in it. *)
Theorem new_wrong_argument_count (cls : Cls) (args : list object)
    (kwargs : list (string * object)) (st : nat) :
  (∀ x, args = [x] → kwargs = [] → class_of x ≠ cls_id cls) →
  length args + length kwargs ≠ length (_fields cls) →
  (∃ msg, __new__ cls args kwargs st = Raise (TypeError msg))
  ∧ ("cls"%string ∉ kwargs.*1 →
     __new__ cls args kwargs st
     = Raise (TypeError ("Must be initialized with exactly "
                         +:+ pretty (length (_fields cls)) +:+ " arguments"))).
Proof.
  intros Hno Hcount. unfold __new__, keys.
  case_bool_decide as Hkw; [split; [by eauto | done] |].
  rewrite shortcut_false by done.
  rewrite bool_decide_eq_false_2 by done. simpl. split; [by eauto | done].
Qed.

Lemma new_wrong_argument_count_witness :
  __new__ Pair [PyInt 0 20 3] [] 30
  = Raise (TypeError "Must be initialized with exactly 2 arguments").
Proof.
  destruct (new_wrong_argument_count Pair [PyInt 0 20 3] [] 30) as [_ Hmsg].
  - intros x Hx _. injection Hx as <-. vm_compute. lia.
  - vm_compute. lia.
  - apply Hmsg. apply not_elem_of_nil.
Defined.



(** *** What a constructed instance looks like *)

Lemma keys_setitem {V} (d : dict V) (k : string) (v : V) (k' : string) :
  k' ∈ keys (setitem d k v) ↔ k' = k ∨ k' ∈ keys d.
Proof.
  unfold keys. induction d as [|[k0 v0] d IH]; simpl.
  - rewrite list_elem_of_singleton, elem_of_nil. tauto.
  - destruct (decide (k0 = k)) as [-> | Hne]; simpl.
    + rewrite !elem_of_cons. tauto.
    + rewrite !elem_of_cons, IH. tauto.
Qed.

Lemma keys_update {V} (kvs d : dict V) (k' : string) :
  k' ∈ keys (update d kvs) ↔ k' ∈ keys d ∨ k' ∈ keys kvs.
Proof.
  unfold update, keys. revert d.
  induction kvs as [|[k v] kvs IH]; intros d; simpl.
  - rewrite elem_of_nil. tauto.
  - pose proof (keys_setitem d k v k') as Hs. unfold keys in Hs.
    rewrite IH, Hs, elem_of_cons. tauto.
Qed.

(** The comprehension keeps every key of the dictionary it converts. *)
Lemma convert_items_keys (ft : dict PyType) (items : list (string * object)) :
  ∀ acc st d st',
    convert_items ft items acc st = Ok (d, st') →
    ∀ k, k ∈ keys acc ∨ k ∈ keys items → k ∈ keys d.
Proof.
  induction items as [|[n v] items IH]; intros acc st d st' Hc k Hk; simpl in Hc.
  - injection Hc as <- <-. destruct Hk as [? | Hk]; [done |].
    by apply elem_of_nil in Hk.
  - apply bind_inv in Hc as (t & st1 & _ & Hc).
    apply bind_inv in Hc as (x & st2 & _ & Hc).
    eapply IH; [exact Hc |]. rewrite keys_setitem.
    destruct Hk as [? | Hk]; [tauto |].
    unfold keys in Hk. simpl in Hk. apply elem_of_cons in Hk. tauto.
Qed.

Lemma mapM_Ok_length {A B} (f : A → result B) (l : list A) (k : list B) :
  mapM f l = Ok k → length k = length l.
Proof.
  revert k. induction l as [|a l IH]; intros k; simpl.
  - intros H. by injection H as <-.
  - unfold mbind at 1, result_bind. destruct (f a) as [b|e]; [| discriminate].
    unfold mbind, result_bind. destruct (mapM f l) as [k'|e] eqn:Hl; [| discriminate].
    intros H. injection H as <-. simpl. f_equal. by apply IH.
Qed.

(** X3: whatever the constructor returns, apart from the shortcut for an
    existing instance, is a tuple of the class with one value for each
    field; the call had as many arguments as the class has fields, and
    every keyword was the name of a field. *)
Theorem new_returns_instance (cls : Cls) (args : list object)
    (kwargs : list (string * object)) (st : nat) (v : object) (st' : nat) :
  (∀ x, args = [x] → kwargs = [] → class_of x ≠ cls_id cls) →
  __new__ cls args kwargs st = Ok (v, st') →
  length args + length kwargs = length (_fields cls)
  ∧ (∃ oid items, v = PyTuple (cls_id cls) oid items
                  ∧ length items = length (_fields cls))
  ∧ ∀ k, k ∈ kwargs.*1 → k ∈ _fields cls.
Proof.
  intros Hno Hnew. unfold __new__ in Hnew.
  case_bool_decide as Hkw; [discriminate |].
  rewrite shortcut_false in Hnew by done.
  case_bool_decide as Hcount; simpl in Hnew; [| discriminate].
  apply bind_inv in Hnew as (converted & st1 & Hconv & Hnt).
  unfold namedtuple_new in Hnt.
  destruct (forallb _ (keys converted)) eqn:Hall; simpl in Hnt; [| discriminate].
  apply bind_inv in Hnt as (items & st2 & Hitems & Hnt).
  unfold lift in Hitems.
  destruct (mapM _ (_fields cls)) as [items'|e] eqn:Hm; [| discriminate].
  injection Hitems as <- <-.
  cbv [mbind M_bind fresh mret M_ret] in Hnt. injection Hnt as <- <-.
  split_and!; [done | |].
  - eexists _, _. split; [reflexivity |]. by eapply mapM_Ok_length.
  - intros k Hk.
    assert (Hin : k ∈ keys converted).
    { eapply convert_items_keys; [exact Hconv |]. right.
      apply keys_update. by right. }
    rewrite forallb_forall in Hall.
    apply list_elem_of_In, Hall in Hin. by apply bool_decide_eq_true_1 in Hin.
Qed.

Lemma new_returns_instance_witness :
  ∃ oid items, PyTuple 11 32 [PyInt 1 30 3; PyInt 1 31 4] = PyTuple (cls_id Pair) oid items
               ∧ length items = length (_fields Pair).
Proof.
  apply (new_returns_instance Pair [PyInt 0 20 3] [("b"%string, PyInt 0 21 4)] 30
           (PyTuple 11 32 [PyInt 1 30 3; PyInt 1 31 4]) 33).
  - intros x _ Hkw. discriminate.
  - vm_compute. reflexivity.
Defined.

(** X4: when every field type is a struct class and every argument is an
    instance of the class of its field, the new instance holds the
    arguments themselves: nested instances are shared, and the only
    object created is the new tuple. *)
Theorem new_shares_nested_instances (classes : nat → option Cls) (cls : Cls)
    (args : list object) (st : nat) :
  NoDup (_fields cls) →
  length (_fields cls) = length (_fieldtypes cls) →
  Forall2 (λ t x, ∃ c, t = StructType classes c ∧ class_of x = cls_id c)
          (_fieldtypes cls) args →
  (∀ x, args = [x] → class_of x ≠ cls_id cls) →
  __new__ cls args [] st = Ok (PyTuple (cls_id cls) st args, S st).
Proof.
  intros Hnd Hl Hargs Hno.
  apply new_positional; [done | done | done |].
  clear Hnd Hl Hno.
  induction Hargs as [|t x ts xs (c & -> & Hx) _ IH]; [constructor |].
  econstructor; [| exact IH].
  simpl. unfold __new__. simpl. by rewrite bool_decide_eq_true_2.
Qed.

Lemma new_shares_nested_instances_witness :
  let p := PyTuple 11 24 [PyInt 1 22 3; PyInt 1 23 4] in
  let q := PyTuple 11 27 [PyInt 1 25 5; PyInt 1 26 6] in
  __new__ Line [p; q] [] 40 = Ok (PyTuple 13 40 [p; q], 41).
Proof.
  apply (new_shares_nested_instances (only_class Pair) Line).
  - apply NoDup_cons. split; [| apply NoDup_singleton].
    intros Hin. apply list_elem_of_singleton in Hin. discriminate.
  - reflexivity.
  - repeat first [apply Forall2_nil_2
                 | apply Forall2_cons_2; [exists Pair; split; reflexivity |]].
  - intros x Hx. discriminate.
Defined.

(** *** The builder *)

Lemma mapM_check_identifier_Raise (names : list string) (e : exn) :
  mapM check_identifier names = Raise e → ∃ msg, e = ValueError msg.
Proof.
  induction names as [|name names IH]; simpl; [discriminate |].
  unfold mbind at 1, result_bind. unfold check_identifier at 1.
  destruct (negb (isidentifier name)); [intros Heq; injection Heq as <-; eauto |].
  destruct (iskeyword name); [intros Heq; injection Heq as <-; eauto |].
  unfold mbind, result_bind. destruct (mapM check_identifier names); [discriminate |].
  intros Heq. injection Heq as <-. by apply IH.
Qed.

Lemma check_field_names_Raise (names seen : list string) (e : exn) :
  check_field_names seen names = Raise e → ∃ msg, e = ValueError msg.
Proof.
  revert seen. induction names as [|name names IH]; intros seen; simpl; [discriminate |].
  destruct (startswith_underscore name); [intros Heq; injection Heq as <-; eauto |].
  case_bool_decide; [intros Heq; injection Heq as <-; eauto |].
  apply IH.
Qed.

(** X5: [struct] raises [ValueError] whenever it is given no field at
    all or the same field name twice; no class is made then. *)
Theorem struct_rejects_bad_fields (name : string) (fields : list (PyType * string))
    (st : nat) :
  fields = [] ∨ ¬ NoDup fields.*2 →
  ∃ msg, struct name fields st = Raise (ValueError msg).
Proof.
  intros Hbad.
  destruct (struct name fields st) as [[T st']|e] eqn:Hs.
  - exfalso. apply struct_Ok in Hs as (Hne & _ & Hf & Hnd & _).
    destruct Hbad as [? | Hdup]; [done |]. apply Hdup. by rewrite <- Hf.
  - revert Hs. unfold struct.
    destruct fields as [|f fields]; [intros Heq; injection Heq as <-; eauto |].
    cbv [mbind M_bind lift unzip].
    destruct (namedtuple_check name ((f :: fields).*2)) as [[]|e'] eqn:Hc.
    + cbv [fresh mret M_ret]. discriminate.
    + intros Heq. injection Heq as <-. unfold namedtuple_check in Hc.
      destruct (mapM check_identifier _) as [us|e0] eqn:Hid.
      * cbv beta iota delta [mbind result_bind] in Hc.
        destruct (check_field_names_Raise _ _ _ Hc) as [msg ->]. eauto.
      * cbv beta iota delta [mbind result_bind] in Hc. injection Hc as <-.
        destruct (mapM_check_identifier_Raise _ _ Hid) as [msg ->]. eauto.
Qed.

Lemma struct_rejects_bad_fields_witness :
  ∃ msg, struct "Pair" [(Uint8 1, "a"%string); (Uint8 1, "a"%string)] 10
         = Raise (ValueError msg).
Proof.
  apply struct_rejects_bad_fields. right. intros Hnd.
  apply NoDup_cons in Hnd as [Hnotin _]. apply Hnotin. left.
Defined.

(** *** Sizes and trailing bytes *)

(** X6: a struct class whose field types have sizes has the sum of these
    sizes as its size: a successful [unpack_from] takes exactly that
    many bytes from the front of the buffer, and [unpack] succeeds only
    on a buffer of that length. *)
Theorem struct_size_is_sum (classes : nat → option Cls) (cls : Cls) (ns : list nat) :
  Forall2 has_size (_fieldtypes cls) ns →
  has_size (StructType classes cls) (sum_list ns)
  ∧ ∀ buf st x st',
      unpack (StructType classes cls) buf st = Ok (x, st') →
      length buf = sum_list ns.
Proof.
  intros Hns.
  assert (Hsize : has_size (StructType classes cls) (sum_list ns))
    by by apply struct_has_size.
  split; [done |]. intros buf st x st' Hu. unfold unpack in Hu.
  apply bind_inv in Hu as ([y rest] & st1 & Hf & Hu).
  destruct rest as [|b rest]; simpl in Hu; [| discriminate].
  apply Hsize in Hf as [Hn Hrest].
  apply (f_equal length) in Hrest. rewrite length_drop in Hrest.
  simpl in Hrest. lia.
Qed.

Lemma struct_size_is_sum_witness :
  has_size (StructType (only_class Pair) Pair) 2.
Proof.
  apply (struct_size_is_sum (only_class Pair) Pair [1; 1]).
  repeat first [apply Forall2_nil_2 | apply Forall2_cons_2; [apply Uint8_has_size |]].
Defined.

(** X7: for an instance whose fields satisfy [field_law], the bytes that
    [pack] produces followed by anything at all are refused by
    [unpack], with [ValueError]. *)
Theorem unpack_rejects_trailing_bytes (classes : nat → option Cls) (name : string)
    (fields : list (PyType * string)) (st0 st0' : nat) (T : Cls)
    (oid : nat) (items : list object) (b trailing : bytes) (st : nat) :
  struct name fields st0 = Ok (T, st0') →
  classes (cls_id T) = Some T →
  Forall2 (field_law T) (_fieldtypes T) items →
  pack classes (PyTuple (cls_id T) oid items) = Ok b →
  trailing ≠ [] →
  unpack (StructType classes T) (b ++ trailing) st
  = Raise (ValueError "buffer size != struct size").
Proof.
  intros Hs Hcls Hfields Hpack Htr.
  apply struct_Ok in Hs as (_ & _ & _ & Hnd & Hl & _).
  destruct (struct_framed classes T oid items Hnd Hl Hcls Hfields)
    as (b' & Hpack' & Hdec).
  rewrite Hpack in Hpack'. injection Hpack' as <-.
  destruct (Hdec trailing st) as (y & st' & Hy & _).
  unfold unpack. erewrite bind_Ok by exact Hy.
  destruct trailing as [|c trailing]; [done | reflexivity].
Qed.

Lemma unpack_rejects_trailing_bytes_witness :
  unpack (StructType (only_class Pair) Pair) (["003"; "004"] ++ ["005"])%byte 30
  = Raise (ValueError "buffer size != struct size").
Proof.
  apply (unpack_rejects_trailing_bytes (only_class Pair) "Pair"
           [(Uint8 1, "a"%string); (Uint8 1, "b"%string)] 10 12 Pair 24
           [PyInt 1 22 3; PyInt 1 23 4]).
  - vm_compute. reflexivity.
  - vm_compute. reflexivity.
  - repeat first [apply Forall2_nil_2
                 | apply Forall2_cons_2; [apply Uint8_field_law; simpl; lia |]].
  - vm_compute. reflexivity.
  - discriminate.
Defined.

(** *** Decoding, then encoding *)

Lemma unpack_fields_inv ts :
  ∀ acc buf st vals rest st',
    unpack_fields ts acc buf st = Ok ((vals, rest), st') →
    ∃ vs, vals = acc ++ vs ∧ decode_chain ts buf st vs rest st'.
Proof.
  induction ts as [|t ts IH]; intros acc buf st vals rest st' Hu; simpl in Hu.
  - injection Hu as <- <- <-. exists []. split; [by rewrite app_nil_r | constructor].
  - apply bind_inv in Hu as ([v buf1] & st1 & Hv & Hu).
    apply IH in Hu as (vs & -> & Hc).
    exists (v :: vs). split; [by rewrite <- app_assoc | econstructor; eauto].
Qed.

Lemma convert_items_inv (ft : dict PyType) ks ts :
  Forall2 (λ k t, get ft k = Some t) ks ts →
  ∀ vs acc st d st',
    length vs = length ks →
    convert_items ft (zip ks vs) acc st = Ok (d, st') →
    ∃ xs, coerce_chain ts vs st xs st'.
Proof.
  induction 1 as [|k t ks ts Hk _ IH]; intros [|v vs] acc st d st' Hl Hc;
    simplify_eq/=.
  - cbv [mret M_ret] in Hc. injection Hc as <- <-. exists []. constructor.
  - unfold getitem in Hc. rewrite Hk in Hc.
    apply bind_inv in Hc as (t' & st0 & Ht & Hc).
    injection Ht as <- <-.
    apply bind_inv in Hc as (x & st1 & Hx & Hc).
    apply IH in Hc as (xs & Hxs); [| done].
    exists (x :: xs). econstructor; eauto.
Qed.

Lemma decoded_not_instances (T : Cls) ts buf st vs rest st' :
  decode_chain ts buf st vs rest st' →
  Forall (decode_law T) ts →
  Forall (λ v, class_of v ≠ cls_id T) vs.
Proof.
  induction 1 as [|t ts buf st v buf1 st1 vs buf2 st2 Ht _ IH]; intros Hlaw;
    [constructor |].
  apply Forall_cons in Hlaw as [Hlt Hlaw].
  constructor; [| by apply IH]. by destruct (Hlt _ _ _ _ _ Ht).
Qed.

Lemma decoded_fields_pack (T : Cls) ts buf st vs rest st1 :
  decode_chain ts buf st vs rest st1 →
  Forall (decode_law T) ts →
  ∀ st2 xs st3,
    coerce_chain ts vs st2 xs st3 →
    ∃ ps, mapM (λ tx : PyType * object, ty_pack tx.1 tx.2) (zip ts xs) = Ok ps
        ∧ buf = concat ps ++ rest.
Proof.
  induction 1 as [|t ts buf st v buf1 st1 vs buf2 st2 Ht _ IH];
    intros Hlaw st2' xs st3 Hco.
  - inversion Hco; subst. exists []. split; reflexivity.
  - apply Forall_cons in Hlaw as [Hlt Hlaw].
    inversion Hco as [|? ? ? ? ? x st4 xs' ? Hcall Hco']; subst.
    destruct (Hlt _ _ _ _ _ Ht) as [_ Hpack].
    destruct (Hpack _ _ _ Hcall) as (p & Hp & ->).
    destruct (IH Hlaw _ _ _ Hco') as (ps & Hps & ->).
    exists (p :: ps). split.
    + simpl. rewrite Hp. unfold mbind at 1. simpl. by rewrite Hps.
    + simpl. by rewrite <- app_assoc.
Qed.

(** X8: for a struct class made by [struct] whose field types satisfy
    [decode_law], whatever [unpack_from] decodes packs back to the bytes
    it took: the buffer is the packed instance followed by the
    remainder. *)
Theorem unpack_from_then_pack (classes : nat → option Cls) (name : string)
    (fields : list (PyType * string)) (st0 st0' : nat) (T : Cls)
    (buf : bytes) (st : nat) (v : object) (rest : bytes) (st' : nat) :
  struct name fields st0 = Ok (T, st0') →
  classes (cls_id T) = Some T →
  Forall (decode_law T) (_fieldtypes T) →
  unpack_from T buf st = Ok ((v, rest), st') →
  ∃ p, pack classes v = Ok p ∧ buf = p ++ rest.
Proof.
  intros Hs Hcls Hlaw Hu.
  apply struct_Ok in Hs as (_ & _ & _ & Hnd & Hl & _).
  unfold unpack_from in Hu.
  apply bind_inv in Hu as ([vals buf1] & st1 & Hf & Hu).
  apply bind_inv in Hu as (x & st2 & Hnew & Hu).
  cbv [mret M_ret] in Hu. injection Hu as <- <- <-.
  apply unpack_fields_inv in Hf as (vs & -> & Hdec). simpl in Hnew.
  pose proof (decoded_not_instances T _ _ _ _ _ _ Hdec Hlaw) as Hnot.
  assert (Hno : ∀ y, vs = [y] → class_of y ≠ cls_id T).
  { intros y ->. exact (proj1 (Forall_singleton _ _) Hnot). }
  assert (Hchain : ∃ xs st3, coerce_chain (_fieldtypes T) vs st1 xs st3).
  { unfold __new__ in Hnew.
    rewrite (bool_decide_eq_false_2 (_ ∈ keys [])) in Hnew by apply not_elem_of_nil.
    rewrite (shortcut_false T vs []) in Hnew by (intros y Hy _; by apply Hno).
    case_bool_decide as Hcount; simpl in Hnew; [| discriminate].
    simpl in Hcount.
    rewrite !of_pairs_NoDup in Hnew by (rewrite keys_zip; [done | lia]).
    apply bind_inv in Hnew as (converted & st3 & Hconv & _).
    eapply convert_items_inv in Hconv as [xs Hxs]; [by eauto | | lia].
    apply get_zip_NoDup; [done | lia]. }
  destruct Hchain as (xs & st3 & Hco).
  rewrite (new_positional T vs st1 xs st3 Hnd Hl Hno Hco) in Hnew.
  injection Hnew as <- <-.
  destruct (decoded_fields_pack T _ _ _ _ _ _ Hdec Hlaw _ _ _ Hco) as (ps & Hps & ->).
  exists (concat ps). split; [| done].
  simpl. rewrite Hcls. by rewrite Hps.
Qed.

Lemma Uint8_decode_law (T : Cls) (cid : nat) :
  cid ≠ cls_id T → decode_law T (Uint8 cid).
Proof.
  intros Hcid [|b buf] st y rest st1 Hu; simpl in Hu; [discriminate |].
  injection Hu as <- <- <-. split; [done |].
  intros st2 z st3 Hcall. simpl in Hcall. injection Hcall as <- <-.
  exists [b]. split; [| done]. simpl.
  rewrite Nat2Z.id, Byte.of_to_nat.
  by rewrite bool_decide_eq_true_2 by lia.
Qed.

Lemma unpack_from_then_pack_witness :
  ∃ p, pack (only_class Pair) (PyTuple 11 34 [PyInt 1 32 3; PyInt 1 33 4]) = Ok p
     ∧ ["003"; "004"; "005"]%byte = p ++ ["005"%byte].
Proof.
  apply (unpack_from_then_pack (only_class Pair) "Pair"
           [(Uint8 1, "a"%string); (Uint8 1, "b"%string)] 10 12 Pair
           ["003"; "004"; "005"]%byte 30 _ _ 35).
  - vm_compute. reflexivity.
  - vm_compute. reflexivity.
  - repeat first [apply Forall_nil_2
                 | apply Forall_cons_2; [apply Uint8_decode_law; simpl; lia |]].
  - vm_compute. reflexivity.
Defined.

End StructdefMore.

(** ** More on [fstring], the key store and request handling *)
Module ControllerApiMore.
Import ControllerApi ControllerApiFacts.

(** X9: a byte string of fewer than 256 bytes, prefixed with its length
    as one byte, is what [fstring] decodes to, whatever follows it. *)
Theorem fstring_decodes_length_prefixed (s trailing : bytes) :
  (length s < 256)%nat →
  ∃ b0, Byte.of_nat (length s) = Some b0
      ∧ fstring (b0 :: s ++ trailing) = Ok s.
Proof.
  intros Hlen. destruct (Byte.of_nat (length s)) as [b0|] eqn:Hb.
  - exists b0. split; [done |]. apply Byte.to_of_nat in Hb.
    rewrite fstring_cons, Hb.
    rewrite bool_decide_eq_true_2 by (rewrite length_app; lia).
    by rewrite take_app_length.
  - apply Byte.of_nat_None_iff in Hb. lia.
Qed.

Lemma fstring_decodes_length_prefixed_witness :
  ∃ b0, Byte.of_nat (length Hello) = Some b0
      ∧ fstring (b0 :: Hello ++ ["!"%byte]) = Ok Hello.
Proof. apply fstring_decodes_length_prefixed. vm_compute. lia. Defined.

(** X10: [fstring] returns [s] exactly on the buffers that are one byte
    holding the length of [s], then [s], then anything: it reads
    [1 + len(s)] bytes and never looks at the others. *)
Theorem fstring_Ok_iff (buf s : bytes) :
  fstring buf = Ok s ↔
  ∃ b0 rest, buf = b0 :: s ++ rest ∧ Byte.to_nat b0 = length s.
Proof.
  split.
  - destruct buf as [|b0 rest']; [discriminate |].
    rewrite fstring_cons. case_bool_decide as Hle; [| discriminate].
    intros Hs. injection Hs as <-.
    exists b0, (drop (Byte.to_nat b0) rest'). split.
    + by rewrite take_drop.
    + rewrite length_take. lia.
  - intros (b0 & rest & -> & Hb). rewrite fstring_cons, Hb.
    rewrite bool_decide_eq_true_2 by (rewrite length_app; lia).
    by rewrite take_app_length.
Qed.

Lemma fstring_Ok_iff_witness :
  ∃ b0 rest, ("002"%byte :: Hello) = b0 :: ["H"; "e"]%byte ++ rest
             ∧ Byte.to_nat b0 = length ["H"; "e"]%byte.
Proof. apply (proj1 (fstring_Ok_iff _ _)). vm_compute. reflexivity. Defined.

(** X11: the module loads exactly when the members of [MsgType] are OPEN
    and nothing else. *)
Theorem import_module_iff (MsgType : Enum) :
  (∃ m, import_module MsgType = Ok m) ↔ (∀ t, t ∈ MsgType ↔ t = "OPEN"%string).
Proof.
  split.
  - intros [m Hm]. apply import_module_Ok in Hm as [_ Hset]. intros t.
    rewrite <- (elem_of_list_to_set (C := gset string)), Hset.
    apply elem_of_singleton.
  - intros Hmem. unfold import_module, getattr.
    rewrite bool_decide_eq_true_2 by by apply Hmem. simpl.
    rewrite bool_decide_eq_true_2; [by eauto |].
    rewrite dom_singleton_L. apply set_eq. intros t.
    rewrite elem_of_list_to_set, elem_of_singleton. apply Hmem.
Qed.

Lemma import_module_iff_witness :
  ∃ m, import_module ["OPEN"; "OPEN"]%string = Ok m.
Proof.
  apply (proj2 (import_module_iff _)). intros t. split.
  - intros Hin. apply elem_of_cons in Hin as [-> | Hin]; [done |].
    by apply list_elem_of_singleton in Hin.
  - intros ->. left.
Defined.

Section HandleRequestMore.

Variable parse_packet_head : bytes → result (PacketHead * bytes).
Variable parse_r : PacketHead → bytes → bytes → result (RequestHead * string * bytes).
Variable make_reply_for :
  PacketHead → RequestHead → bytes → ResponseStatus → option bytes → result bytes.
Variable bytes2mac : bytes → string.
Variable controller : list (string * bytes).

Abbreviation handle := (handle_request parse_packet_head parse_r make_reply_for
                     bytes2mac controller).

Lemma get_key_for_mac_eq (mac : bytes) (tr : list event) :
  get_key_for_mac bytes2mac controller mac tr
  = (match (filter (λ row, row.1 = bytes2mac mac) controller).*2 with
     | [key] => Ok key
     | _ => Raise (BadMessageError "unknown controllerID ")
     end,
     tr ++ [EvExecSql (bytes2mac mac)]).
Proof.
  unfold get_key_for_mac, exec_sql_select_key.
  unfold mbind, IO_bind, call.
  by destruct ((filter _ controller).*2) as [|key [|key' rows]].
Qed.

Lemma try_except_reraise {A} (body : IO A) (buf : bytes) (tr : list event) :
  try_except_BadMessageError body (log_bad_packet buf) tr = body tr.
Proof.
  unfold try_except_BadMessageError, log_bad_packet, liftIO.
  by destruct (body tr) as [[a|[]] tr'].
Qed.

(** X12: [get_key_for_mac] queries the key store once; it returns the
    key when exactly one row has the identifier, and raises
    [BadMessageError] both when none has it and when several have. *)
Theorem get_key_for_mac_rows (mac : bytes) (tr : list event) :
  let rows := (filter (λ row, row.1 = bytes2mac mac) controller).*2 in
  (get_key_for_mac bytes2mac controller mac tr).2 = tr ++ [EvExecSql (bytes2mac mac)]
  ∧ (∀ key, rows = [key] →
       (get_key_for_mac bytes2mac controller mac tr).1 = Ok key)
  ∧ (length rows ≠ 1 →
       (get_key_for_mac bytes2mac controller mac tr).1
       = Raise (BadMessageError "unknown controllerID ")).
Proof.
  intros rows. rewrite get_key_for_mac_eq. fold rows. split_and!.
  - reflexivity.
  - by intros key ->.
  - by destruct rows as [|key [|key' rows']].
Qed.


(** X14: when the head of the packet does not parse, [handle_request]
    raises the error of [parse_packet_head] and nothing else has been
    attempted: the key store is not queried. *)
Theorem bad_head_stops_handling (m : module) (buf : bytes) (e : exn)
    (tr : list event) :
  parse_packet_head buf = Raise e →
  handle m buf tr = (Raise e, tr ++ [EvParsePacketHead buf]).
Proof.
  intros Hhead. unfold handle_request. rewrite try_except_reraise.
  unfold mbind at 1, IO_bind. unfold call at 1. by rewrite Hhead.
Qed.

(** The requests that get as far as dispatch. *)
Lemma handle_dispatch (m : module) (buf : bytes) (head : PacketHead)
    (payload key : bytes) (req_head : RequestHead) (req_type : string)
    (indata : bytes) (tr : list event) :
  parse_packet_head buf = Ok (head, payload) →
  (filter (λ row, row.1 = bytes2mac (controllerID head)) controller).*2 = [key] →
  parse_r head key payload = Ok (req_head, req_type, indata) →
  handle m buf tr
  = let tr3 := tr ++ [EvParsePacketHead buf; EvExecSql (bytes2mac (controllerID head));
                      EvParseR payload] in
    match process_request m !! req_type with
    | None => (Raise (KeyError req_type), tr3)
    | Some h =>
        match h indata with
        | Raise e => (Raise e, tr3)
        | Ok (status, outdata) =>
            (make_reply_for head req_head key status outdata,
             tr3 ++ [EvPrint (bytes2mac (controllerID head)) req_type indata status;
                     EvMakeReply status outdata])
        end
    end.
Proof.
  intros Hhead Hkey Hr. unfold handle_request. rewrite try_except_reraise.
  unfold mbind at 1, IO_bind. unfold call at 1. rewrite Hhead.
  unfold mbind at 1, IO_bind. rewrite get_key_for_mac_eq, Hkey.
  unfold mbind at 1, IO_bind. unfold call at 1. rewrite Hr.
  unfold mbind at 1, IO_bind. unfold liftIO at 1.
  rewrite <- !app_assoc. simpl.
  destruct (process_request m !! req_type) as [h|]; [| done].
  unfold mbind at 1, IO_bind. unfold liftIO at 1.
  destruct (h indata) as [[status outdata]|e]; [| done].
  unfold log_message, mbind, IO_bind, call.
  by rewrite <- !app_assoc.
Qed.

(** X15: a request from a known controller whose payload parses and
    whose handler returns a status gets the reply that
    [make_reply_for] builds from this status; the request is logged
    once, after the handler has run and before the reply is built. *)
Theorem handled_request_is_answered (m : module) (buf : bytes) (head : PacketHead)
    (payload key : bytes) (req_head : RequestHead) (req_type : string)
    (indata : bytes) (h : handler) (status : ResponseStatus)
    (outdata : option bytes) (tr : list event) :
  parse_packet_head buf = Ok (head, payload) →
  (filter (λ row, row.1 = bytes2mac (controllerID head)) controller).*2 = [key] →
  parse_r head key payload = Ok (req_head, req_type, indata) →
  process_request m !! req_type = Some h →
  h indata = Ok (status, outdata) →
  handle m buf tr
  = (make_reply_for head req_head key status outdata,
     tr ++ [EvParsePacketHead buf; EvExecSql (bytes2mac (controllerID head));
            EvParseR payload;
            EvPrint (bytes2mac (controllerID head)) req_type indata status;
            EvMakeReply status outdata]).
Proof.
  intros Hhead Hkey Hr Hh Hres.
  rewrite (handle_dispatch _ _ _ _ _ _ _ _ _ Hhead Hkey Hr). cbv zeta.
  unfold handler in *. rewrite Hh, Hres. by rewrite <- !app_assoc.
Qed.

(** X16: when the handler of the request raises, [handle_request]
    raises the same error; nothing is logged and no reply is built. *)
Theorem failed_handler_gets_no_reply (m : module) (buf : bytes) (head : PacketHead)
    (payload key : bytes) (req_head : RequestHead) (req_type : string)
    (indata : bytes) (h : handler) (e : exn) (tr : list event) :
  parse_packet_head buf = Ok (head, payload) →
  (filter (λ row, row.1 = bytes2mac (controllerID head)) controller).*2 = [key] →
  parse_r head key payload = Ok (req_head, req_type, indata) →
  process_request m !! req_type = Some h →
  h indata = Raise e →
  handle m buf tr
  = (Raise e,
     tr ++ [EvParsePacketHead buf; EvExecSql (bytes2mac (controllerID head));
            EvParseR payload]).
Proof.
  intros Hhead Hkey Hr Hh Hres.
  rewrite (handle_dispatch _ _ _ _ _ _ _ _ _ Hhead Hkey Hr). cbv zeta.
  unfold handler in *. by rewrite Hh, Hres.
Qed.

(** X17: in a loaded module, a request whose type is anything but OPEN
    finds no handler: [handle_request] raises [KeyError], which is not a
    [BadMessageError], and makes no reply. *)
Theorem unhandled_type_is_KeyError (MsgType : Enum) (m : module) (buf : bytes)
    (head : PacketHead) (payload key : bytes) (req_head : RequestHead)
    (req_type : string) (indata : bytes) (tr : list event) :
  import_module MsgType = Ok m →
  parse_packet_head buf = Ok (head, payload) →
  (filter (λ row, row.1 = bytes2mac (controllerID head)) controller).*2 = [key] →
  parse_r head key payload = Ok (req_head, req_type, indata) →
  req_type ≠ "OPEN"%string →
  handle m buf tr
  = (Raise (KeyError req_type),
     tr ++ [EvParsePacketHead buf; EvExecSql (bytes2mac (controllerID head));
            EvParseR payload]).
Proof.
  intros Hm Hhead Hkey Hr Hne. apply import_module_Ok in Hm as [-> _].
  rewrite (handle_dispatch _ _ _ _ _ _ _ _ _ Hhead Hkey Hr). cbv zeta.
  cbn [process_request]. by rewrite lookup_singleton_ne.
Qed.

End HandleRequestMore.

Lemma get_key_for_mac_rows_witness :
  (get_key_for_mac hex_bytes2mac
     [("aa:bb:cc:dd:ee:ff"%string, ["k"%byte]); ("aa:bb:cc:dd:ee:ff"%string, ["j"%byte])]
     ["170"; "187"; "204"; "221"; "238"; "255"]%byte []).1
  = Raise (BadMessageError "unknown controllerID ").
Proof.
  apply (get_key_for_mac_rows hex_bytes2mac
           [("aa:bb:cc:dd:ee:ff"%string, ["k"%byte]); ("aa:bb:cc:dd:ee:ff"%string, ["j"%byte])]).
  vm_compute. lia.
Defined.

Lemma bad_head_stops_handling_witness :
  handle_request (split_packet_head "001"%byte)
    (λ _ _ _, Raise (BadMessageError "bad MAC")) (λ _ _ _ _ _, Ok [])
    hex_bytes2mac one_controller
    {| process_request := {[ "OPEN"%string := handle_OPEN ]} |}
    ["001"; "170"]%byte []
  = (Raise (BadMessageError "packet too short"),
     [] ++ [EvParsePacketHead ["001"; "170"]%byte]).
Proof. apply bad_head_stops_handling. vm_compute. reflexivity. Defined.

Lemma handled_request_is_answered_witness :
  let head := {| protocolVersion := "001"%byte;
                 controllerID := ["170"; "187"; "204"; "221"; "238"; "255"]%byte;
                 nonce := replicate 18 "000"%byte |} in
  handle_request (split_packet_head "001"%byte)
    (λ _ _ payload, Ok ({| msgtype := "001"%byte |}, "OPEN"%string, payload))
    (λ _ _ _ _ _, Ok ["r"%byte])
    hex_bytes2mac [("aa:bb:cc:dd:ee:ff"%string, ["k"%byte])]
    {| process_request := {[ "OPEN"%string := handle_OPEN ]} |}
    packet_from_aabbccddeeff []
  = (Ok ["r"%byte],
     [] ++ [EvParsePacketHead packet_from_aabbccddeeff;
            EvExecSql (hex_bytes2mac (controllerID head));
            EvParseR ("005"%byte :: Hello);
            EvPrint (hex_bytes2mac (controllerID head)) "OPEN" ("005"%byte :: Hello) OK;
            EvMakeReply OK None]).
Proof.
  intros head.
  apply (handled_request_is_answered (split_packet_head "001"%byte)
           (λ _ _ payload, Ok ({| msgtype := "001"%byte |}, "OPEN"%string, payload))
           (λ _ _ _ _ _, Ok ["r"%byte])
           hex_bytes2mac [("aa:bb:cc:dd:ee:ff"%string, ["k"%byte])]
           {| process_request := {[ "OPEN"%string := handle_OPEN ]} |}
           packet_from_aabbccddeeff head ("005"%byte :: Hello)
           ["k"%byte] {| msgtype := "001"%byte |} "OPEN"%string
           ("005"%byte :: Hello) handle_OPEN OK None []).
  - vm_compute. reflexivity.
  - vm_compute. reflexivity.
  - reflexivity.
  - apply lookup_singleton_eq.
  - vm_compute. reflexivity.
Defined.

Lemma failed_handler_gets_no_reply_witness :
  let head := {| protocolVersion := "001"%byte;
                 controllerID := ["170"; "187"; "204"; "221"; "238"; "255"]%byte;
                 nonce := replicate 18 "000"%byte |} in
  handle_request (split_packet_head "001"%byte)
    (λ _ _ payload, Ok ({| msgtype := "001"%byte |}, "OPEN"%string, ["009"%byte]))
    (λ _ _ _ _ _, Ok ["r"%byte])
    hex_bytes2mac [("aa:bb:cc:dd:ee:ff"%string, ["k"%byte])]
    {| process_request := {[ "OPEN"%string := handle_OPEN ]} |}
    packet_from_aabbccddeeff []
  = (Raise (BadMessageError "fstring length > buffer size"),
     [] ++ [EvParsePacketHead packet_from_aabbccddeeff;
            EvExecSql (hex_bytes2mac (controllerID head));
            EvParseR ("005"%byte :: Hello)]).
Proof.
  intros head.
  apply (failed_handler_gets_no_reply (split_packet_head "001"%byte)
           (λ _ _ payload, Ok ({| msgtype := "001"%byte |}, "OPEN"%string, ["009"%byte]))
           (λ _ _ _ _ _, Ok ["r"%byte])
           hex_bytes2mac [("aa:bb:cc:dd:ee:ff"%string, ["k"%byte])]
           {| process_request := {[ "OPEN"%string := handle_OPEN ]} |}
           packet_from_aabbccddeeff head ("005"%byte :: Hello)
           ["k"%byte] {| msgtype := "001"%byte |} "OPEN"%string
           ["009"%byte] handle_OPEN).
  - vm_compute. reflexivity.
  - vm_compute. reflexivity.
  - reflexivity.
  - apply lookup_singleton_eq.
  - vm_compute. reflexivity.
Defined.

Lemma unhandled_type_is_KeyError_witness :
  let head := {| protocolVersion := "001"%byte;
                 controllerID := ["170"; "187"; "204"; "221"; "238"; "255"]%byte;
                 nonce := replicate 18 "000"%byte |} in
  handle_request (split_packet_head "001"%byte)
    (λ _ _ payload, Ok ({| msgtype := "002"%byte |}, "CLOSE"%string, payload))
    (λ _ _ _ _ _, Ok ["r"%byte])
    hex_bytes2mac [("aa:bb:cc:dd:ee:ff"%string, ["k"%byte])]
    {| process_request := {[ "OPEN"%string := handle_OPEN ]} |}
    packet_from_aabbccddeeff []
  = (Raise (KeyError "CLOSE"),
     [] ++ [EvParsePacketHead packet_from_aabbccddeeff;
            EvExecSql (hex_bytes2mac (controllerID head));
            EvParseR ("005"%byte :: Hello)]).
Proof.
  intros head.
  apply (unhandled_type_is_KeyError (split_packet_head "001"%byte)
           (λ _ _ payload, Ok ({| msgtype := "002"%byte |}, "CLOSE"%string, payload))
           (λ _ _ _ _ _, Ok ["r"%byte])
           hex_bytes2mac [("aa:bb:cc:dd:ee:ff"%string, ["k"%byte])]
           ["OPEN"%string] {| process_request := {[ "OPEN"%string := handle_OPEN ]} |}
           packet_from_aabbccddeeff head
           ("005"%byte :: Hello) ["k"%byte] {| msgtype := "002"%byte |}
           "CLOSE"%string ("005"%byte :: Hello)).
  - vm_compute. reflexivity.
  - vm_compute. reflexivity.
  - vm_compute. reflexivity.
  - reflexivity.
  - discriminate.
Defined.

(** *** udpclient.py *)

Import Udpclient.


End ControllerApiMore.
